(** * AI Interview Assistant ([sprint_1/interview.py])

    A shallow embedding of the four service-backed helpers ([check_role],
    [generate_questions_openai], [check_answer_safety],
    [evaluate_answers_openai]) and of the wizard that drives them, followed by
    the properties of the specification that they decide.

    Modelling conventions.
    - Python [str] values are Stdlib strings, one [ascii] per code point, so
      the model covers text over the code points 0..255.
    - The completion service and [json.loads] are not code of the program:
      they are section variables.  The service is asked through
      [chat_completions_create], which records the request; its reply may
      depend on the request and on the number of earlier calls.
    - A failure of the client is an [Exception] outside the [ValueError]
      family, as the errors of the OpenAI client are.
    - [st.error] / [st.warning] append to the list of messages shown to the
      user; [print] writes to the process's standard output, which is not
      part of the modelled state.
    - The constant text of a prompt is represented by the constructor of the
      request, which carries the values interpolated into it. *)

From Stdlib Require Import List String Ascii ZArith Bool Arith Lia.
From Stdlib Require Import DecimalString.
Import ListNotations.
Local Open Scope list_scope.
Local Open Scope string_scope.

(** ** Python strings *)

Module PyStr.

(** [str.isspace] on one code point below 256: TAB..CR, FS..US, SPACE,
    NEL (0x85) and NBSP (0xA0). *)
Definition is_space (c : ascii) : bool :=
  let n := nat_of_ascii c in
  (((9 <=? n) && (n <=? 13)) || ((28 <=? n) && (n <=? 32))
   || (n =? 133) || (n =? 160))%nat.

Fixpoint lstrip_chars (l : list ascii) : list ascii :=
  match l with
  | c :: l' => if is_space c then lstrip_chars l' else l
  | [] => []
  end.

Definition rstrip_chars (l : list ascii) : list ascii :=
  rev (lstrip_chars (rev l)).

(** [s.strip()] *)
Definition strip (s : string) : string :=
  string_of_list_ascii
    (rstrip_chars (lstrip_chars (list_ascii_of_string s))).

(** [str.upper] on one code point.  ASCII letters and the Latin-1 letters
    0xE0..0xFE (0xF7 excepted) move down by 32; 0xDF becomes the two
    letters SS.  The upper-case forms of 0xB5 and 0xFF lie above 255: the
    model keeps these two characters, which like their images are not
    ASCII letters. *)
Definition upper_char (c : ascii) : string :=
  let n := nat_of_ascii c in
  if (((97 <=? n) && (n <=? 122))
      || ((224 <=? n) && (n <=? 254) && negb (n =? 247)))%nat
  then String (ascii_of_nat (n - 32)) EmptyString
  else if (n =? 223)%nat then "SS"
  else String c EmptyString.

(** [s.upper()] *)
Fixpoint upper (s : string) : string :=
  match s with
  | EmptyString => EmptyString
  | String c s' => upper_char c ++ upper s'
  end.

(** Truth value of a string: [bool(s)]. *)
Definition truthy (s : string) : bool :=
  match s with EmptyString => false | _ => true end.

(** [str(n)] for a non-negative integer. *)
Definition of_nat (n : nat) : string :=
  NilZero.string_of_uint (Nat.to_uint n).

(** The test [a and a.strip()] of the wizard, and the negation of
    [not a or not a.strip()]. *)
Definition non_blank (a : string) : bool :=
  truthy a && truthy (strip a).

(** Empty or made of white space only, character by character. *)
Definition whitespace_only (s : string) : Prop :=
  Forall (fun c => is_space c = true) (list_ascii_of_string s).

End PyStr.

(** ** The outside world: the completion service and the page *)

(** [response.choices[i].message.content]: a choice may have no message, a
    message may have no content. *)
Definition Message : Type := option string.
Definition Choice : Type := option Message.

Record Response : Type := mkResponse { choices : list Choice }.

(** What a call of the client produces: a response, or a raised
    [Exception] with its text. *)
Inductive Reply : Type :=
| Returned (r : Response)
| Raised (e : string).

(** The four request shapes. *)
Inductive Request : Type :=
| RoleCheck (role_to_check : string)
| QuestionGeneration (num_questions : Z) (complexity role : string)
| AnswerSafety (answer_text : string)
| Evaluation (role transcript : string) (num_questions : Z).

Inductive Notice : Type :=
| StError (text : string)
| StWarning (text : string).

Record World : Type := mkWorld {
  calls : list Request;     (* requests sent so far, oldest first *)
  page : list Notice        (* messages shown to the user, oldest first *)
}.

Definition M (A : Type) : Type := World -> A * World.

Definition ret {A} (a : A) : M A := fun w => (a, w).

Definition bind {A B} (m : M A) (k : A -> M B) : M B :=
  fun w => let (a, w') := m w in k a w'.

Notation "x <- m ;; k" := (bind m (fun x => k))
  (at level 61, m at next level, right associativity).
Notation "m ;;; k" := (bind m (fun _ => k))
  (at level 61, right associativity).

Definition st_error (text : string) : M unit :=
  fun w => (tt, mkWorld (calls w) (page w ++ [StError text])%list).

Definition st_warning (text : string) : M unit :=
  fun w => (tt, mkWorld (calls w) (page w ++ [StWarning text])%list).

(** [response.choices and response.choices[0].message and
    response.choices[0].message.content], as the text when all three are
    true. *)
Definition guarded_content (r : Response) : option string :=
  match choices r with
  | Some (Some c) :: _ => if PyStr.truthy c then Some c else None
  | _ => None
  end.

(** [response.choices[0].message.content] without the guard: [inl] is the
    text of the [IndexError] or [AttributeError] raised on the way. *)
Definition first_content (r : Response) : string + option string :=
  match choices r with
  | [] => inl "list index out of range"
  | None :: _ => inl "'NoneType' object has no attribute 'content'"
  | Some m :: _ => inr m
  end.

(** ** Values decoded by [json.loads] *)

(** A Python [float]: a dyadic rational [m * 2^e], an infinity or a NaN. *)
Inductive pyfloat : Type :=
| FFinite (m e : Z)
| FInf (negative : bool)
| FNan.

#[local] Set Warnings "-register-all".

Inductive json : Type :=
| JNull
| JBool (b : bool)
| JInt (z : Z)
| JFloat (f : pyfloat)
| JStr (s : string)
| JList (items : list json)
| JDict (fields : list (string * json)).

(** Outcome of [json.loads]: the value, or a [JSONDecodeError] with its
    text. *)
Inductive Decoding : Type :=
| Decoded (v : json)
| DecodeError (msg : string).

Module Py.

(** [d[k]] on a decoded object, [None] when [k not in d]. *)
Fixpoint dict_get (k : string) (d : list (string * json)) : option json :=
  match d with
  | [] => None
  | (k', v) :: d' => if String.eqb k k' then Some v else dict_get k d'
  end.

(** [isinstance(v, int)]: [bool] is a subclass of [int]. *)
Definition isinstance_int (v : json) : bool :=
  match v with JInt _ | JBool _ => true | _ => false end.

Definition isinstance_str (v : json) : bool :=
  match v with JStr _ => true | _ => false end.

Definition float_eq_int (f : pyfloat) (i : Z) : bool :=
  match f with
  | FFinite m e =>
      if (0 <=? e)%Z then (m * 2 ^ e =? i)%Z else (m =? i * 2 ^ (- e))%Z
  | _ => false
  end.

(** [v == i] for an integer [i]: numbers compare by value, [True] is 1
    and [False] is 0, anything else is different from an integer. *)
Definition eq_int (v : json) (i : Z) : bool :=
  match v with
  | JInt z => (z =? i)%Z
  | JBool b => ((if b then 1 else 0) =? i)%Z
  | JFloat f => float_eq_int f i
  | _ => false
  end.

(** The strings of a list when [all(isinstance(q, str) for q in l)]. *)
Fixpoint all_str (l : list json) : option (list string) :=
  match l with
  | [] => Some []
  | JStr s :: l' => option_map (cons s) (all_str l')
  | _ :: _ => None
  end.

(** [l[:n]] *)
Definition slice_to {A} (l : list A) (n : Z) : list A :=
  if (0 <=? n)%Z then firstn (Z.to_nat n) l
  else firstn (List.length l - Z.to_nat (- n)) l.

(** [l[i]], [None] on [IndexError]; a negative index counts from the
    end. *)
Definition getitem {A} (l : list A) (i : Z) : option A :=
  if (0 <=? i)%Z then nth_error l (Z.to_nat i)
  else if (- i <=? Z.of_nat (List.length l))%Z
       then nth_error l (List.length l - Z.to_nat (- i))
       else None.

Fixpoint set_nth {A} (l : list A) (n : nat) (x : A) : list A :=
  match l, n with
  | [], _ => []
  | _ :: l', O => x :: l'
  | y :: l', S n' => y :: set_nth l' n' x
  end.

(** [l[i] = x], [None] on [IndexError]. *)
Definition setitem {A} (l : list A) (i : Z) (x : A) : option (list A) :=
  if (0 <=? i)%Z
  then if (i <? Z.of_nat (List.length l))%Z
       then Some (set_nth l (Z.to_nat i) x) else None
  else if (- i <=? Z.of_nat (List.length l))%Z
       then Some (set_nth l (List.length l - Z.to_nat (- i)) x)
       else None.

End Py.

(** Line feed, as written [\n] in the source. *)
Definition nl : string := String (ascii_of_nat 10) EmptyString.

Section Service.

(** Reply of the service to a request, given how many requests came
    before. *)
Variable service : nat -> Request -> Reply.

(** [json.loads] *)
Variable json_loads : string -> Decoding.

(** [client.chat.completions.create(...)] *)
Definition chat_completions_create (req : Request) : M Reply :=
  fun w => (service (List.length (calls w)) req,
            mkWorld (calls w ++ [req])%list (page w)).

(** *** [check_answer_safety] *)

(** The test that [client] is an initialised [OpenAI] object always
    passes: the script stops at start-up when there is no key. *)
Definition check_answer_safety (answer_text : string) : M (option bool) :=
  if negb (PyStr.truthy answer_text)
     || negb (PyStr.truthy (PyStr.strip answer_text))
  then ret (Some true)
  else
    reply <- chat_completions_create (AnswerSafety answer_text) ;;
    match reply with
    | Raised e =>
        st_error ("An unexpected error occurred during answer safety check: "
                  ++ e) ;;;
        ret None
    | Returned response =>
        match guarded_content response with
        | Some text =>
            let content := PyStr.upper (PyStr.strip text) in
            let raw_content := PyStr.strip text in
            if String.eqb content "SAFE" then ret (Some true)
            else if String.eqb content "UNSAFE" then ret (Some false)
            else
              st_warning ("Safety check unclear: AI response was '"
                          ++ raw_content
                          ++ "'. Review manually if possible.") ;;;
              ret (Some false)
        | None =>
            st_error
              "Error checking answer safety: Invalid response structure from AI." ;;;
            ret None
        end
    end.


(** *** [check_role] *)

Definition check_role (role_to_check : string) : M (option string) :=
  reply <- chat_completions_create (RoleCheck role_to_check) ;;
  match reply with
  | Raised e =>
      st_error ("An unexpected error occurred during role name validation: "
                ++ e) ;;;
      ret None
  | Returned response =>
      match guarded_content response with
      | Some text =>
          let content := PyStr.upper (PyStr.strip text) in
          let raw_content := PyStr.strip text in
          if String.eqb content "VALID" then ret (Some role_to_check)
          else if String.eqb content "INVALID" then ret (Some "")
          else
            st_error ("Error checking role: AI response was unclear ('"
                      ++ raw_content ++ "'). Please try again.") ;;;
            ret None
      | None =>
          st_error
            "Error checking role name: Invalid response structure from AI." ;;;
          ret None
      end
  end.

(** *** [generate_questions_openai] *)

(** The inner [try] block, from [json.loads(content)] on. *)
Definition parse_questions (num_questions : Z) (content : string)
  : M (option (list string)) :=
  match json_loads content with
  | DecodeError _ =>
      st_error "Error: Could not parse the AI's response as valid JSON." ;;;
      ret (Some [])
  | Decoded data =>
      match data with
      | JDict d =>
          match Py.dict_get "questions" d with
          | Some (JList parsed_questions) =>
              match Py.all_str parsed_questions with
              | Some qs => ret (Some (Py.slice_to qs num_questions))
              | None =>
                  st_error
                    "Error: AI returned invalid data format inside the JSON 'questions' list." ;;;
                  ret (Some [])
              end
          | _ =>
              st_error
                "Error: AI response did not contain the expected 'questions' list in the JSON object." ;;;
              ret (Some [])
          end
      | _ =>
          st_error
            "Error: AI response did not contain the expected 'questions' list in the JSON object." ;;;
          ret (Some [])
      end
  end.

(** The result is the list returned, or [None] when the function falls off
    its end: the outer handler only prints. *)
Definition generate_questions_openai
    (num_questions : Z) (complexity_of_question role : string)
  : M (option (list string)) :=
  reply <- chat_completions_create
             (QuestionGeneration num_questions complexity_of_question role) ;;
  match reply with
  | Raised _ => ret None
  | Returned response =>
      match first_content response with
      | inl _ => ret None
      | inr None => ret None     (* json.loads(None) raises a TypeError *)
      | inr (Some content) => parse_questions num_questions content
      end
  end.


(** *** [evaluate_answers_openai] *)

(** The loop over [enumerate(zip(questions, answers))], from position
    [i] on. *)
Fixpoint build_transcript (i : nat) (pairs : list (string * string))
    (interview_transcript : string) (valid_answers_provided : bool)
  : string * bool :=
  match pairs with
  | [] => (interview_transcript, valid_answers_provided)
  | (q, a) :: rest =>
      let answer_text := if PyStr.truthy a then PyStr.strip a else "" in
      let asked :=
        interview_transcript
        ++ "Question " ++ PyStr.of_nat (i + 1) ++ ": " ++ q ++ nl in
      if PyStr.truthy answer_text
      then build_transcript (S i) rest
             (asked ++ "Answer " ++ PyStr.of_nat (i + 1) ++ ": "
                    ++ answer_text ++ nl ++ nl)
             true
      else build_transcript (S i) rest
             (asked ++ "Answer " ++ PyStr.of_nat (i + 1)
                    ++ ": --- NOT ANSWERED ---" ++ nl ++ nl)
             valid_answers_provided
  end.

(** The structured response returned when no answer was typed. *)
Definition not_answered_record (i : nat) : json :=
  JDict [("question_index", JInt (Z.of_nat i));
         ("grade", JInt 1);
         ("justification", JStr "Not answered")].

Definition no_answers_evaluation (n : nat) : json :=
  JDict [("evaluations", JList (map not_answered_record (seq 0 n)));
         ("overall_grade", JInt 1);
         ("overall_justification",
          JStr "No answers were provided for evaluation.")].

(** The condition under which the loop over the items raises. *)
Definition item_invalid (i : nat) (item : json) : bool :=
  match item with
  | JDict d =>
      match Py.dict_get "question_index" d with
      | None => true
      | Some question_index =>
          negb (Py.eq_int question_index (Z.of_nat i))
          || match Py.dict_get "grade" d with
             | None => true
             | Some grade =>
                 negb (Py.isinstance_int grade)
                 || match Py.dict_get "justification" d with
                    | None => true
                    | Some justification =>
                        negb (Py.isinstance_str justification)
                    end
             end
      end
  | _ => true
  end.

Fixpoint validate_items (i : nat) (items : list json) : option string :=
  match items with
  | [] => None
  | item :: rest =>
      if item_invalid i item
      then Some ("Invalid structure for evaluation item at index "
                 ++ PyStr.of_nat i ++ ".")
      else validate_items (S i) rest
  end.

(** Validation of the received JSON: the text of the [ValueError] raised,
    or [None] when every check passes. *)
Definition validate (evaluation_results : json) (n_questions : nat)
  : option string :=
  match evaluation_results with
  | JDict d =>
      match Py.dict_get "evaluations" d with
      | Some (JList evaluations) =>
          match Py.dict_get "overall_grade" d with
          | Some overall_grade =>
              if Py.isinstance_int overall_grade then
                match Py.dict_get "overall_justification" d with
                | Some (JStr _) =>
                    if (List.length evaluations =? n_questions)%nat
                    then validate_items 0 evaluations
                    else Some ("JSON response 'evaluations' list length ("
                               ++ PyStr.of_nat (List.length evaluations)
                               ++ ") does not match number of questions ("
                               ++ PyStr.of_nat n_questions ++ ").")
                | _ =>
                    Some "JSON response missing or invalid 'overall_justification'."
                end
              else Some "JSON response missing or invalid 'overall_grade'."
          | None => Some "JSON response missing or invalid 'overall_grade'."
          end
      | _ => Some "JSON response missing 'evaluations' list."
      end
  | _ => Some "Evaluation response is not a JSON object."
  end.

(** The three handlers of the [try] block. *)
Definition on_json_decode_error (json_err : string) : M (option json) :=
  st_error ("Error: Could not parse the AI's evaluation response (invalid JSON). "
            ++ json_err) ;;;
  ret None.

Definition on_value_error (val_err : string) : M (option json) :=
  st_error ("Error: The AI's evaluation response had an invalid structure. "
            ++ val_err) ;;;
  ret None.

Definition on_exception (e : string) : M (option json) :=
  st_error ("An unexpected error occurred during evaluation: " ++ e) ;;;
  ret None.

Definition evaluate_answers_openai
    (questions answers : list string) (num_questions : Z) (role : string)
  : M (option json) :=
  match questions, answers with
  | [], _ | _, [] => ret None
  | _ :: _, _ :: _ =>
      if negb (List.length questions =? List.length answers)%nat
      then ret None
      else
        let (interview_transcript, valid_answers_provided) :=
          build_transcript 0 (combine questions answers) "" false in
        if negb valid_answers_provided then
          st_warning "Cannot evaluate as no answers were provided." ;;;
          ret (Some (no_answers_evaluation (List.length questions)))
        else
          reply <- chat_completions_create
                     (Evaluation role interview_transcript num_questions) ;;
          match reply with
          | Raised e => on_exception e
          | Returned response =>
              match first_content response with
              | inl e => on_exception e
              | inr None =>
                  on_exception
                    "the JSON object must be str, bytes or bytearray, not NoneType"
              | inr (Some evaluation_content) =>
                  match json_loads evaluation_content with
                  | DecodeError json_err => on_json_decode_error json_err
                  | Decoded evaluation_results =>
                      match validate evaluation_results
                              (List.length questions) with
                      | Some val_err => on_value_error val_err
                      | None => ret (Some evaluation_results)
                      end
                  end
              end
          end
  end.

End Service.

(** ** The session record and the wizard *)

Inductive Phase : Type := setup | interviewing | finished.

(** [st.session_state].  [questions] holds whatever
    [generate_questions_openai] returned last, [None] included. *)
Record Session : Type := mkSession {
  interview_phase : Phase;
  questions : option (list string);
  answers : list string;
  current_question_index : Z;
  evaluation_results : option json;
  num_questions_selected : Z;
  questions_complexity : string;
  selected_option : string;
  custom_role_input : string;
  effective_role : string
}.

(** The values given by the [setdefault] calls at process start. *)
Definition default_session : Session :=
  {| interview_phase := setup;
     questions := Some [];
     answers := [];
     current_question_index := 0;
     evaluation_results := None;
     num_questions_selected := 5;
     questions_complexity := "Medium";
     selected_option := "App Developer";
     custom_role_input := "";
     effective_role := "App Developer" |}.

Definition with_phase (p : Phase) (s : Session) : Session :=
  {| interview_phase := p;
     questions := questions s;
     answers := answers s;
     current_question_index := current_question_index s;
     evaluation_results := evaluation_results s;
     num_questions_selected := num_questions_selected s;
     questions_complexity := questions_complexity s;
     selected_option := selected_option s;
     custom_role_input := custom_role_input s;
     effective_role := effective_role s |}.

Definition with_questions (q : option (list string)) (s : Session) : Session :=
  {| interview_phase := interview_phase s;
     questions := q;
     answers := answers s;
     current_question_index := current_question_index s;
     evaluation_results := evaluation_results s;
     num_questions_selected := num_questions_selected s;
     questions_complexity := questions_complexity s;
     selected_option := selected_option s;
     custom_role_input := custom_role_input s;
     effective_role := effective_role s |}.

Definition with_answers (a : list string) (s : Session) : Session :=
  {| interview_phase := interview_phase s;
     questions := questions s;
     answers := a;
     current_question_index := current_question_index s;
     evaluation_results := evaluation_results s;
     num_questions_selected := num_questions_selected s;
     questions_complexity := questions_complexity s;
     selected_option := selected_option s;
     custom_role_input := custom_role_input s;
     effective_role := effective_role s |}.

Definition with_index (i : Z) (s : Session) : Session :=
  {| interview_phase := interview_phase s;
     questions := questions s;
     answers := answers s;
     current_question_index := i;
     evaluation_results := evaluation_results s;
     num_questions_selected := num_questions_selected s;
     questions_complexity := questions_complexity s;
     selected_option := selected_option s;
     custom_role_input := custom_role_input s;
     effective_role := effective_role s |}.

Definition with_evaluation (e : option json) (s : Session) : Session :=
  {| interview_phase := interview_phase s;
     questions := questions s;
     answers := answers s;
     current_question_index := current_question_index s;
     evaluation_results := e;
     num_questions_selected := num_questions_selected s;
     questions_complexity := questions_complexity s;
     selected_option := selected_option s;
     custom_role_input := custom_role_input s;
     effective_role := effective_role s |}.

(** The buttons of the interviewing page.  [NextOrFinish] is the one
    button labelled "Submit & Next" or "Finish Interview & Evaluate". *)
Inductive Click : Type := Previous | NextOrFinish | EndEarly.

(** The handler of "Start New Interview". *)
Definition start_new_interview (s : Session) : Session :=
  {| interview_phase := setup;
     questions := Some [];
     answers := [];
     current_question_index := 0;
     evaluation_results := None;
     num_questions_selected := 3;
     questions_complexity := questions_complexity s;
     selected_option := "App Developer";
     custom_role_input := "";
     effective_role := "App Developer" |}.

Definition flagged_placeholder : string := "[Content Flagged as Unsafe]".

(** Local variables of the safety sweep, with the answers list it
    mutates. *)
Record Sweep : Type := mkSweep {
  swept_answers : list string;
  all_answers_safe : bool;
  unsafe_indices : list nat
}.

Section Wizard.

Variable service : nat -> Request -> Reply.
Variable json_loads : string -> Decoding.

(** The handler of the start button of the setup page, for the validated
    role [final_role]. *)
Definition start_interview (final_role : string) (s : Session) : M Session :=
  generated <- generate_questions_openai service json_loads
                 (num_questions_selected s) (questions_complexity s)
                 final_role ;;
  let s := with_questions generated s in
  match generated with
  | Some (q :: qs) =>
      ret (with_phase interviewing
             (with_evaluation None
                (with_index 0
                   (with_answers (repeat "" (List.length (q :: qs))) s))))
  | _ =>
      st_error
        "Failed to generate interview questions. Please check the role or try again." ;;;
      ret s
  end.

(** One run of the script in the interviewing phase: [typed] is the value
    of the text area, [click] the button pressed, if any.  The result is
    [None] when the run dies of an uncaught [TypeError] or
    [IndexError]. *)
Definition interviewing_run (typed : string) (click : option Click)
    (s : Session) : M (option Session) :=
  match questions s with
  | None => ret None
  | Some qs =>
      let total_questions := Z.of_nat (List.length qs) in
      let q_index := current_question_index s in
      if (total_questions =? 0)%Z || (total_questions <=? q_index)%Z then
        st_error "Error: No questions found to display. Returning to setup." ;;;
        ret (Some (with_phase setup s))
      else
        match Py.getitem qs q_index, Py.getitem (answers s) q_index with
        | Some current_question, Some _ =>
            match Py.setitem (answers s) q_index typed with
            | None => ret None
            | Some edited =>
                let s := with_answers edited s in
                match click with
                | Some Previous =>
                    if (0 <? q_index)%Z
                    then ret (Some (with_index (q_index - 1) s))
                    else ret (Some s)
                | Some NextOrFinish =>
                    if (q_index =? total_questions - 1)%Z
                    then ret (Some (with_phase finished s))
                    else ret (Some (with_index (q_index + 1) s))
                | Some EndEarly => ret (Some (with_phase finished s))
                | None => ret (Some s)
                end
            end
        | _, _ => ret None
        end
  end.

(** The loop over [enumerate(st.session_state.answers)] of the finished
    page, from position [i] on.  The list is read where it lives, so a
    slot replaced earlier is seen replaced; [fuel] bounds the number of
    iterations and is the length of the list. *)
Fixpoint sweep_from (fuel i : nat) (st : Sweep) : M Sweep :=
  match fuel with
  | O => ret st
  | S fuel' =>
      match nth_error (swept_answers st) i with
      | None => ret st
      | Some answer =>
          if PyStr.non_blank answer then
            is_safe <- check_answer_safety service answer ;;
            match is_safe with
            | Some false =>
                st_warning ("Warning: Answer to question "
                            ++ PyStr.of_nat (i + 1)
                            ++ " flagged as potentially unsafe.") ;;;
                sweep_from fuel' (S i)
                  {| swept_answers :=
                       Py.set_nth (swept_answers st) i flagged_placeholder;
                     all_answers_safe := false;
                     unsafe_indices := (unsafe_indices st ++ [i])%list |}
            | None =>
                st_error ("Could not verify safety for answer "
                          ++ PyStr.of_nat (i + 1) ++ " due to an error.") ;;;
                sweep_from fuel' (S i)
                  {| swept_answers := swept_answers st;
                     all_answers_safe := false;
                     unsafe_indices := unsafe_indices st |}
            | Some true => sweep_from fuel' (S i) st
            end
          else sweep_from fuel' (S i) st
      end
  end.

(** Entry of the finished page, up to the evaluation. *)
Definition safety_sweep (s : Session) : M (Session * Sweep) :=
  st <- sweep_from (List.length (answers s)) 0
          {| swept_answers := answers s;
             all_answers_safe := true;
             unsafe_indices := [] |} ;;
  (if all_answers_safe st then ret tt
   else st_error
          "Some answers were flagged as potentially unsafe and may not be evaluated properly.") ;;;
  ret (with_answers (swept_answers st) s, st).

End Wizard.

(** ** Vocabulary of the properties *)

(** The token the two moderation helpers compare with their literals:
    [content.strip().upper()] when the reply has a content, [None] when the
    client raised or the reply has no usable content. *)
Definition reply_token (r : Reply) : option string :=
  match r with
  | Returned response =>
      option_map (fun text => PyStr.upper (PyStr.strip text))
                 (guarded_content response)
  | Raised _ => None
  end.

(** The world after one more request and the notices [shown]. *)
Definition after_call (req : Request) (shown : list Notice) (w : World)
  : World :=
  mkWorld (calls w ++ [req])%list (page w ++ shown)%list.

(** The request [evaluate_answers_openai] sends for these arguments. *)
Definition evaluation_request (questions answers : list string)
    (num_questions : Z) (role : string) : Request :=
  Evaluation role
    (fst (build_transcript 0 (combine questions answers) "" false))
    num_questions.

(** Ways in which the [i]-th record of an evaluation breaks the required
    shape. *)
Inductive record_violation (i : nat) : json -> Prop :=
| record_not_object v :
    (forall d, v <> JDict d) -> record_violation i v
| record_index_missing d :
    Py.dict_get "question_index" d = None -> record_violation i (JDict d)
| record_index_differs d x :
    Py.dict_get "question_index" d = Some x ->
    Py.eq_int x (Z.of_nat i) = false ->
    record_violation i (JDict d)
| record_grade_missing d :
    Py.dict_get "grade" d = None -> record_violation i (JDict d)
| record_grade_type d x :
    Py.dict_get "grade" d = Some x -> Py.isinstance_int x = false ->
    record_violation i (JDict d)
| record_justification_missing d :
    Py.dict_get "justification" d = None -> record_violation i (JDict d)
| record_justification_type d x :
    Py.dict_get "justification" d = Some x -> Py.isinstance_str x = false ->
    record_violation i (JDict d).

(** Ways in which a decoded evaluation breaks the required shape, for [n]
    questions.  An integer is what Python's [isinstance(_, int)] accepts,
    which includes the two booleans. *)
Inductive schema_violation (n : nat) : json -> Prop :=
| result_not_object v :
    (forall d, v <> JDict d) -> schema_violation n v
| evaluations_missing d :
    Py.dict_get "evaluations" d = None -> schema_violation n (JDict d)
| evaluations_type d x :
    Py.dict_get "evaluations" d = Some x -> (forall l, x <> JList l) ->
    schema_violation n (JDict d)
| overall_grade_missing d :
    Py.dict_get "overall_grade" d = None -> schema_violation n (JDict d)
| overall_grade_type d x :
    Py.dict_get "overall_grade" d = Some x -> Py.isinstance_int x = false ->
    schema_violation n (JDict d)
| overall_justification_missing d :
    Py.dict_get "overall_justification" d = None ->
    schema_violation n (JDict d)
| overall_justification_type d x :
    Py.dict_get "overall_justification" d = Some x ->
    Py.isinstance_str x = false ->
    schema_violation n (JDict d)
| evaluations_length d l :
    Py.dict_get "evaluations" d = Some (JList l) -> List.length l <> n ->
    schema_violation n (JDict d)
| evaluations_record d l i item :
    Py.dict_get "evaluations" d = Some (JList l) ->
    nth_error l i = Some item -> record_violation i item ->
    schema_violation n (JDict d).

(** The notices of the two failure kinds of the evaluator. *)
Definition validation_failure (val_err : string) : Notice :=
  StError ("Error: The AI's evaluation response had an invalid structure. "
           ++ val_err).

Definition decode_failure (json_err : string) : Notice :=
  StError ("Error: Could not parse the AI's evaluation response (invalid JSON). "
           ++ json_err).

(** The invariant of the interviewing phase. *)
Definition interviewing_invariant (s : Session) : Prop :=
  exists qs,
    questions s = Some qs
    /\ List.length (answers s) = List.length qs
    /\ (0 <= current_question_index s < Z.of_nat (List.length qs))%Z.

(** What [check_answer_safety] makes of the reply to a non-blank answer. *)
Definition safety_verdict (r : Reply) : option bool :=
  match reply_token r with
  | None => None
  | Some token => Some (String.eqb token "SAFE")
  end.

(** Number of requests the sweep has sent when it reaches position [i]. *)
Definition checks_before (l : list string) (i : nat) : nat :=
  List.length (filter PyStr.non_blank (firstn i l)).

(** The slot of answer [a] after the sweep, for the verdict it got. *)
Definition swept_slot (verdict : option bool) (a : string) : string :=
  match verdict with
  | Some false => flagged_placeholder
  | _ => a
  end.

(** The answers list after the sweep, when [k] requests came before. *)
Fixpoint swept (service : nat -> Request -> Reply) (k : nat)
    (l : list string) : list string :=
  match l with
  | [] => []
  | a :: l' =>
      if PyStr.non_blank a
      then swept_slot (safety_verdict (service k (AnswerSafety a))) a
           :: swept service (S k) l'
      else a :: swept service k l'
  end.

(** ** Fixtures for the concrete cases *)

Module Fixture.

Definition quote : string := String (ascii_of_nat 34) EmptyString.

Definition fresh : World := mkWorld [] [].

(** A reply whose first choice carries [text]. *)
Definition says (text : string) : Reply :=
  Returned (mkResponse [Some (Some text)]).

(** A service that gives the same reply to every request. *)
Definition always (r : Reply) : nat -> Request -> Reply := fun _ _ => r.

(** [json.loads] on the texts listed in [known]; the fixtures list every
    text they decode. *)
Fixpoint loads (known : list (string * json)) (text : string) : Decoding :=
  match known with
  | [] => DecodeError "Expecting value: line 1 column 1 (char 0)"
  | (t, v) :: rest => if String.eqb text t then Decoded v else loads rest text
  end.

(** [{"questions": ["Tell me about a dashboard you built.", "How do you
    validate a data source?"]}] and its decoding. *)
Definition two_questions_text : string :=
  "{" ++ quote ++ "questions" ++ quote ++ ": ["
      ++ quote ++ "Tell me about a dashboard you built." ++ quote ++ ", "
      ++ quote ++ "How do you validate a data source?" ++ quote ++ "]}".

Definition two_questions : json :=
  JDict [("questions",
          JList [JStr "Tell me about a dashboard you built.";
                 JStr "How do you validate a data source?"])].

(** [{"evaluations": [], "overall_justification": "ok"}]: no
    [overall_grade]. *)
Definition no_overall_grade_text : string :=
  "{" ++ quote ++ "evaluations" ++ quote ++ ": [], "
      ++ quote ++ "overall_justification" ++ quote ++ ": "
      ++ quote ++ "ok" ++ quote ++ "}".

Definition no_overall_grade : json :=
  JDict [("evaluations", JList []); ("overall_justification", JStr "ok")].

(** A session that reached the finished page of a "Hard" interview. *)
Definition hard_finished : Session :=
  {| interview_phase := finished;
     questions := Some ["Q1"; "Q2"; "Q3"];
     answers := ["a1"; ""; "a3"];
     current_question_index := 2;
     evaluation_results := None;
     num_questions_selected := 3;
     questions_complexity := "Hard";
     selected_option := "Data Analyst";
     custom_role_input := "";
     effective_role := "Data Analyst" |}.

(** A session on the second of three questions. *)
Definition mid_interview : Session :=
  {| interview_phase := interviewing;
     questions := Some ["Q1"; "Q2"; "Q3"];
     answers := ["a1"; ""; ""];
     current_question_index := 1;
     evaluation_results := None;
     num_questions_selected := 3;
     questions_complexity := "Easy";
     selected_option := "Data Analyst";
     custom_role_input := "";
     effective_role := "Data Analyst" |}.

End Fixture.

(** ** The setup page and the evaluation step of the finished page *)

(** Of the calls that draw on the page only [st.error] and [st.warning] are
    recorded in [page]; [st.info], [st.success], [st.write] and the widgets
    are rendering.  A run of the script that dies of an uncaught exception
    yields [None]. *)

Definition with_count (n : Z) (s : Session) : Session :=
  {| interview_phase := interview_phase s;
     questions := questions s;
     answers := answers s;
     current_question_index := current_question_index s;
     evaluation_results := evaluation_results s;
     num_questions_selected := n;
     questions_complexity := questions_complexity s;
     selected_option := selected_option s;
     custom_role_input := custom_role_input s;
     effective_role := effective_role s |}.

Definition with_complexity (c : string) (s : Session) : Session :=
  {| interview_phase := interview_phase s;
     questions := questions s;
     answers := answers s;
     current_question_index := current_question_index s;
     evaluation_results := evaluation_results s;
     num_questions_selected := num_questions_selected s;
     questions_complexity := c;
     selected_option := selected_option s;
     custom_role_input := custom_role_input s;
     effective_role := effective_role s |}.

(** The three role fields, assigned together by the setup page. *)
Definition with_roles (option_ custom effective : string) (s : Session)
  : Session :=
  {| interview_phase := interview_phase s;
     questions := questions s;
     answers := answers s;
     current_question_index := current_question_index s;
     evaluation_results := evaluation_results s;
     num_questions_selected := num_questions_selected s;
     questions_complexity := questions_complexity s;
     selected_option := option_;
     custom_role_input := custom;
     effective_role := effective |}.

(** [list(range(3, 11))] *)
Definition question_options : list Z := [3; 4; 5; 6; 7; 8; 9; 10]%Z.

Definition role_options : list string :=
  ["App Developer"; "Data Analyst"; "Big Data Engineer"; "General";
   "Other..."].

Definition complexity_options : list string := ["Easy"; "Medium"; "Hard"].

(** What the widgets of the setup page return in one run: the three select
    boxes, the text input of the custom role, and whether the start button
    was pressed. *)
Record SetupWidgets : Type := mkSetupWidgets {
  num_q_select : Z;
  role_select : string;
  q_complexity : string;
  custom_role_text : string;
  start_pressed : bool
}.

(** [bool(v)] of a decoded value. *)
Definition json_truthy (v : json) : bool :=
  match v with
  | JNull => false
  | JBool b => b
  | JInt z => negb (z =? 0)%Z
  | JFloat (FFinite m _) => negb (m =? 0)%Z
  | JFloat _ => true
  | JStr s => PyStr.truthy s
  | JList l => match l with [] => false | _ => true end
  | JDict d => match d with [] => false | _ => true end
  end.

Section Pages.

Variable service : nat -> Request -> Reply.
Variable json_loads : string -> Decoding.

(** Role display and validation of the setup page: the value of
    [effective_role_for_start], empty when the start button is disabled. *)
Definition role_for_start (display_role : string) : M string :=
  if String.eqb display_role "Other..." then ret ""
  else if negb (PyStr.truthy display_role) then ret ""
  else
    checked_role_name <- check_role service display_role ;;
    match checked_role_name with
    | Some name =>
        if negb (String.eqb name "") then ret name
        else
          st_error ("The role name '" ++ display_role
                    ++ "' was deemed inappropriate or not a valid job role. Please enter a different one.") ;;;
          ret ""
    | None =>
        st_warning
          "Could not confirm role validity. Please try again or choose a different role." ;;;
        ret ""
    end.

(** One run of the script in the setup phase.  The two [options.index(...)]
    lookups on the stored count and complexity raise a [ValueError] when
    the stored value is not an option.  A disabled button is never
    pressed. *)
Definition setup_run (widgets : SetupWidgets) (s : Session)
  : M (option Session) :=
  if negb (existsb (Z.eqb (num_questions_selected s)) question_options)
  then ret None
  else if negb (existsb (String.eqb (questions_complexity s))
                  complexity_options)
  then ret None
  else
    let s := with_count (num_q_select widgets) s in
    let s := with_complexity (q_complexity widgets) s in
    let custom_role :=
      if String.eqb (role_select widgets) "Other..."
      then PyStr.strip (custom_role_text widgets) else "" in
    let effective :=
      if String.eqb (role_select widgets) "Other..."
      then (if PyStr.truthy custom_role then custom_role else "Other...")
      else role_select widgets in
    let s := with_roles (role_select widgets) custom_role effective s in
    effective_role_for_start <- role_for_start effective ;;
    if start_pressed widgets && PyStr.truthy effective_role_for_start
    then
      s' <- start_interview service json_loads effective_role_for_start s ;;
      ret (Some s')
    else ret (Some s).

(** The finished page from "Trigger or Display Evaluation" up to the
    display: the evaluation is computed when none is stored. *)
Definition finished_evaluation (s : Session) : M (option Session) :=
  match evaluation_results s with
  | Some _ => ret (Some s)
  | None =>
      if existsb PyStr.non_blank (answers s) then
        result <-
          match questions s with
          | Some qs =>
              evaluate_answers_openai service json_loads qs (answers s)
                (num_questions_selected s) (effective_role s)
          | None => ret None        (* [not questions] holds of [None] *)
          end ;;
        let s := with_evaluation result s in
        if match result with Some v => json_truthy v | None => false end
        then ret (Some s)
        else
          st_error "Failed to get evaluation results from the AI." ;;;
          ret (Some s)
      else
        st_warning
          "No answers were provided during the interview, so no evaluation can be performed." ;;;
        match questions s with
        | Some qs =>
            ret (Some (with_evaluation
                         (Some (no_answers_evaluation (List.length qs))) s))
        | None => ret None          (* [len(None)] raises a [TypeError] *)
        end
  end.

(** A run of the finished page down to the display: the safety sweep, then
    the evaluation step. *)
Definition finished_entry (s : Session) : M (option Session) :=
  swept_state <- safety_sweep service s ;;
  finished_evaluation (fst swept_state).

End Pages.

(** Answering question after question: each text of [typed] is entered
    and "Submit & Next" (or "Finish Interview & Evaluate") pressed. *)
Fixpoint answer_in_turn (typed : list string) (s : Session)
  : M (option Session) :=
  match typed with
  | [] => ret (Some s)
  | text :: rest =>
      after <- interviewing_run text (Some NextOrFinish) s ;;
      match after with
      | Some s' => answer_in_turn rest s'
      | None => ret None
      end
  end.

(** ** More vocabulary *)

(** The shape of an evaluation for [n] questions, record by record. *)
Definition record_ok (i : nat) (item : json) : Prop :=
  exists d x g j,
    item = JDict d
    /\ Py.dict_get "question_index" d = Some x
    /\ Py.eq_int x (Z.of_nat i) = true
    /\ Py.dict_get "grade" d = Some g
    /\ Py.isinstance_int g = true
    /\ Py.dict_get "justification" d = Some (JStr j).

Definition evaluation_ok (n : nat) (v : json) : Prop :=
  exists d l g j,
    v = JDict d
    /\ Py.dict_get "evaluations" d = Some (JList l)
    /\ List.length l = n
    /\ Py.dict_get "overall_grade" d = Some g
    /\ Py.isinstance_int g = true
    /\ Py.dict_get "overall_justification" d = Some (JStr j)
    /\ forall i item, nth_error l i = Some item -> record_ok i item.

(** The stored count and complexity are options of their select boxes. *)
Definition selections_ok (s : Session) : Prop :=
  In (num_questions_selected s) question_options
  /\ In (questions_complexity s) complexity_options.

(** The verdict the sweep obtains for the answer at position [i] of [l],
    when [k] requests came before the sweep. *)
Definition verdict_at (service : nat -> Request -> Reply) (k : nat)
    (l : list string) (i : nat) (a : string) : option bool :=
  safety_verdict (service (k + checks_before l i)%nat (AnswerSafety a)).

(** Positions, counted from [i], of the answers of [l] found unsafe, and
    whether every checked answer of [l] was found safe. *)
Fixpoint flagged_from (service : nat -> Request -> Reply) (k i : nat)
    (l : list string) : list nat :=
  match l with
  | [] => []
  | a :: l' =>
      if PyStr.non_blank a then
        match safety_verdict (service k (AnswerSafety a)) with
        | Some false => i :: flagged_from service (S k) (S i) l'
        | _ => flagged_from service (S k) (S i) l'
        end
      else flagged_from service k (S i) l'
  end.

Fixpoint all_safe (service : nat -> Request -> Reply) (k : nat)
    (l : list string) : bool :=
  match l with
  | [] => true
  | a :: l' =>
      if PyStr.non_blank a then
        match safety_verdict (service k (AnswerSafety a)) with
        | Some true => all_safe service (S k) l'
        | _ => false
        end
      else all_safe service k l'
  end.

(** The custom role, the effective role and the session that a run of the
    setup page derives from its widgets before it checks the role. *)
Definition resolved_custom_role (widgets : SetupWidgets) : string :=
  if String.eqb (role_select widgets) "Other..."
  then PyStr.strip (custom_role_text widgets) else "".

Definition resolved_role (widgets : SetupWidgets) : string :=
  if String.eqb (role_select widgets) "Other..."
  then (if PyStr.truthy (resolved_custom_role widgets)
        then resolved_custom_role widgets else "Other...")
  else role_select widgets.

Definition configured (widgets : SetupWidgets) (s : Session) : Session :=
  with_roles (role_select widgets) (resolved_custom_role widgets)
    (resolved_role widgets)
    (with_complexity (q_complexity widgets)
       (with_count (num_q_select widgets) s)).

(** ** More fixtures *)

Module Sample.

(** [{"evaluations": [{"question_index": 0, "grade": 7, "justification":
    "Clear."}], "overall_grade": 7, "overall_justification": "Good."}] and
    its decoding. *)
Definition one_evaluation_text : string :=
  "{" ++ Fixture.quote ++ "evaluations" ++ Fixture.quote ++ ": [{"
      ++ Fixture.quote ++ "question_index" ++ Fixture.quote ++ ": 0, "
      ++ Fixture.quote ++ "grade" ++ Fixture.quote ++ ": 7, "
      ++ Fixture.quote ++ "justification" ++ Fixture.quote ++ ": "
      ++ Fixture.quote ++ "Clear." ++ Fixture.quote ++ "}], "
      ++ Fixture.quote ++ "overall_grade" ++ Fixture.quote ++ ": 7, "
      ++ Fixture.quote ++ "overall_justification" ++ Fixture.quote ++ ": "
      ++ Fixture.quote ++ "Good." ++ Fixture.quote ++ "}".

Definition one_evaluation : json :=
  JDict [("evaluations",
          JList [JDict [("question_index", JInt 0);
                        ("grade", JInt 7);
                        ("justification", JStr "Clear.")]]);
         ("overall_grade", JInt 7);
         ("overall_justification", JStr "Good.")].

(** A service that replies by the kind of the request. *)
Definition by_kind (role_check generation safety evaluation : Reply)
  : nat -> Request -> Reply :=
  fun _ req =>
    match req with
    | RoleCheck _ => role_check
    | QuestionGeneration _ _ _ => generation
    | AnswerSafety _ => safety
    | Evaluation _ _ _ => evaluation
    end.

(** The texts the fixtures decode. *)
Definition decoder : string -> Decoding :=
  Fixture.loads
    [(Fixture.two_questions_text, Fixture.two_questions);
     (Fixture.no_overall_grade_text, Fixture.no_overall_grade);
     (one_evaluation_text, one_evaluation)].

End Sample.

(** ** Properties *)

(** *** Strings *)

Lemma lstrip_chars_spaces (l : list ascii) :
  Forall (fun c => PyStr.is_space c = true) l -> PyStr.lstrip_chars l = [].
Proof.
  induction 1 as [|c l Hc _ IH]; simpl.
  - reflexivity.
  - now rewrite Hc.
Qed.

Lemma strip_whitespace_only (s : string) :
  PyStr.whitespace_only s -> PyStr.strip s = "".
Proof.
  unfold PyStr.whitespace_only, PyStr.strip. intros H.
  now rewrite (lstrip_chars_spaces _ H).
Qed.

Lemma non_blank_whitespace_only (s : string) :
  PyStr.whitespace_only s -> PyStr.non_blank s = false.
Proof.
  intros H. unfold PyStr.non_blank.
  rewrite (strip_whitespace_only _ H). apply andb_false_r.
Qed.

(** *** The monad *)

Lemma bind_ret {A B} (a : A) (k : A -> M B) (w : World) :
  bind (ret a) k w = k a w.
Proof. reflexivity. Qed.

Lemma bind_st_error {B} (text : string) (k : unit -> M B) (w : World) :
  bind (st_error text) k w
  = k tt (mkWorld (calls w) (page w ++ [StError text])%list).
Proof. reflexivity. Qed.

Lemma bind_st_warning {B} (text : string) (k : unit -> M B) (w : World) :
  bind (st_warning text) k w
  = k tt (mkWorld (calls w) (page w ++ [StWarning text])%list).
Proof. reflexivity. Qed.

Lemma bind_create {B} service (req : Request) (k : Reply -> M B) (w : World) :
  bind (chat_completions_create service req) k w
  = k (service (List.length (calls w)) req)
      (mkWorld (calls w ++ [req])%list (page w)).
Proof. reflexivity. Qed.

(** *** [check_answer_safety] on blank input *)

(** C9.  For every answer text that is empty or made of white space only,
    [check_answer_safety] returns the safe result and leaves the world as it
    was: no request is sent, whatever the service would have replied. *)
Theorem check_answer_safety_blank
    (service : nat -> Request -> Reply) (answer_text : string) (w : World) :
  PyStr.whitespace_only answer_text ->
  check_answer_safety service answer_text w = (Some true, w).
Proof.
  intros H. unfold check_answer_safety.
  rewrite (strip_whitespace_only _ H). simpl.
  now rewrite orb_true_r.
Qed.

Lemma check_answer_safety_blank_witness :
  let text := String (ascii_of_nat 32) (String (ascii_of_nat 9) (String (ascii_of_nat 10) "")) in
  PyStr.whitespace_only text
  /\ check_answer_safety (Fixture.always (Raised "unreachable")) text
       Fixture.fresh
     = (Some true, Fixture.fresh).
Proof.
  assert (H : PyStr.whitespace_only
                (String (ascii_of_nat 32)
                   (String (ascii_of_nat 9) (String (ascii_of_nat 10) "")))).
  { repeat constructor. }
  split; [exact H | exact (check_answer_safety_blank _ _ _ H)].
Defined.

(** *** [evaluate_answers_openai] before any request *)

(** C10.  With an empty question list, an empty answer list, or lists of
    different lengths, [evaluate_answers_openai] returns [None] and leaves
    the world as it was: no request, no notice. *)
Theorem evaluate_answers_guard
    (service : nat -> Request -> Reply) (json_loads : string -> Decoding)
    (questions answers : list string) (num_questions : Z) (role : string)
    (w : World) :
  questions = [] \/ answers = []
  \/ List.length questions <> List.length answers ->
  evaluate_answers_openai service json_loads questions answers
    num_questions role w
  = (None, w).
Proof.
  intros [-> | [-> | Hlen]].
  - reflexivity.
  - now destruct questions.
  - destruct questions as [|q qs], answers as [|a l]; try reflexivity.
    unfold evaluate_answers_openai.
    apply Nat.eqb_neq in Hlen. now rewrite Hlen.
Qed.

Lemma evaluate_answers_guard_witness :
  evaluate_answers_openai (Fixture.always (Raised "unreachable"))
    (Fixture.loads []) ["Q1"; "Q2"; "Q3"] ["a1"; "a2"] 3 "Data Analyst"
    Fixture.fresh
  = (None, Fixture.fresh).
Proof.
  apply evaluate_answers_guard. right; right. simpl. lia.
Defined.

Lemma build_transcript_blank (pairs : list (string * string)) :
  Forall PyStr.whitespace_only (map snd pairs) ->
  forall i transcript valid,
    snd (build_transcript i pairs transcript valid) = valid.
Proof.
  induction pairs as [|[q a] rest IH]; intros H i transcript valid; simpl.
  - reflexivity.
  - inversion H as [|? ? Ha Hrest]; subst.
    rewrite (strip_whitespace_only _ Ha).
    destruct (PyStr.truthy a); simpl; now apply IH.
Qed.

Lemma nth_error_not_answered (n i : nat) :
  (i < n)%nat ->
  nth_error (map not_answered_record (seq 0 n)) i
  = Some (not_answered_record i).
Proof.
  intros H. rewrite nth_error_map, nth_error_seq.
  destruct (Nat.ltb_spec i n); [reflexivity | lia].
Qed.

(** C6.  When the aligned, non-empty lists of questions and answers hold
    only answers that are empty or white space, [evaluate_answers_openai]
    sends no request and returns the synthetic evaluation: one record per
    question, in order, with its index, grade 1 and the justification "Not
    answered", an overall grade of 1 and the overall "no answers"
    justification.  (Lists that are empty or differ in length never get
    this far: the guard at the top of the function returns [None].) *)
Theorem evaluate_answers_all_blank
    (service : nat -> Request -> Reply) (json_loads : string -> Decoding)
    (questions answers : list string) (num_questions : Z) (role : string)
    (w : World) :
  questions <> [] ->
  List.length questions = List.length answers ->
  Forall PyStr.whitespace_only answers ->
  exists records w',
    evaluate_answers_openai service json_loads questions answers
      num_questions role w
    = (Some (JDict [("evaluations", JList records);
                    ("overall_grade", JInt 1);
                    ("overall_justification",
                     JStr "No answers were provided for evaluation.")]),
       w')
    /\ calls w' = calls w
    /\ List.length records = List.length questions
    /\ forall i, (i < List.length questions)%nat ->
         nth_error records i
         = Some (JDict [("question_index", JInt (Z.of_nat i));
                        ("grade", JInt 1);
                        ("justification", JStr "Not answered")]).
Proof.
  intros Hq Hlen Hblank.
  exists (map not_answered_record (seq 0 (List.length questions))).
  exists (mkWorld (calls w)
            (page w ++ [StWarning "Cannot evaluate as no answers were provided."])%list).
  split; [|split; [reflexivity|split]].
  - destruct questions as [|q qs]; [congruence|].
    destruct answers as [|a l]; [discriminate|].
    unfold evaluate_answers_openai.
    rewrite Hlen, Nat.eqb_refl. cbn [negb].
    assert (Hv : snd (build_transcript 0 (combine (q :: qs) (a :: l)) "" false)
                 = false).
    { apply build_transcript_blank.
      apply Forall_forall. intros x Hx.
      apply in_map_iff in Hx. destruct Hx as [[q' a'] [<- Hin]].
      apply in_combine_r in Hin.
      eapply Forall_forall in Hblank; eauto. }
    destruct (build_transcript 0 (combine (q :: qs) (a :: l)) "" false)
      as [transcript valid].
    simpl in Hv. subst valid. reflexivity.
  - now rewrite length_map, length_seq.
  - intros i Hi. now rewrite nth_error_not_answered.
Qed.

Lemma evaluate_answers_all_blank_witness :
  exists records w',
    evaluate_answers_openai (Fixture.always (Raised "unreachable"))
      (Fixture.loads []) ["Q1"; "Q2"; "Q3"] [""; "  "; ""] 3 "Data Analyst"
      Fixture.fresh
    = (Some (JDict [("evaluations", JList records);
                    ("overall_grade", JInt 1);
                    ("overall_justification",
                     JStr "No answers were provided for evaluation.")]),
       w')
    /\ calls w' = calls Fixture.fresh
    /\ List.length records = 3%nat
    /\ forall i, (i < 3)%nat ->
         nth_error records i
         = Some (JDict [("question_index", JInt (Z.of_nat i));
                        ("grade", JInt 1);
                        ("justification", JStr "Not answered")]).
Proof.
  apply (evaluate_answers_all_blank
           (Fixture.always (Raised "unreachable")) (Fixture.loads [])
           ["Q1"; "Q2"; "Q3"] [""; "  "; ""] 3 "Data Analyst" Fixture.fresh).
  - discriminate.
  - reflexivity.
  - repeat constructor.
Defined.

(** *** Validation of the decoded evaluation *)

Lemma record_violation_invalid (i : nat) (item : json) :
  record_violation i item -> item_invalid i item = true.
Proof.
  intros H.
  destruct H as [v Hv | d Hq | d x Hq Hx | d Hg | d x Hg Hx | d Hj | d x Hj Hx].
  - destruct v; try reflexivity. now elim (Hv fields).
  - simpl. now rewrite Hq.
  - simpl. now rewrite Hq, Hx.
  - simpl. rewrite Hg.
    destruct (Py.dict_get "question_index" d); [apply orb_true_r | reflexivity].
  - simpl. rewrite Hg, Hx.
    destruct (Py.dict_get "question_index" d); [apply orb_true_r | reflexivity].
  - simpl. rewrite Hj.
    destruct (Py.dict_get "question_index" d); [|reflexivity].
    destruct (Py.dict_get "grade" d); [|apply orb_true_r].
    now rewrite !orb_true_r.
  - simpl. rewrite Hj, Hx.
    destruct (Py.dict_get "question_index" d); [|reflexivity].
    destruct (Py.dict_get "grade" d); [|apply orb_true_r].
    now rewrite !orb_true_r.
Qed.

Lemma validate_items_violation (l : list json) :
  forall i j item,
    nth_error l j = Some item -> record_violation (i + j) item ->
    exists val_err, validate_items i l = Some val_err.
Proof.
  induction l as [|x l IH]; intros i j item Hnth Hbad.
  - now destruct j.
  - simpl. destruct (item_invalid i x) eqn:Hx; [eauto|].
    destruct j as [|j]; simpl in Hnth.
    + injection Hnth as ->. rewrite Nat.add_0_r in Hbad.
      apply record_violation_invalid in Hbad. congruence.
    + apply (IH (S i) j item Hnth).
      now replace (S i + j)%nat with (i + S j)%nat by lia.
Qed.

Lemma validate_violation (n : nat) (v : json) :
  schema_violation n v -> exists val_err, validate v n = Some val_err.
Proof.
  intros H.
  destruct H as [v Hv | d He | d x He Hx | d Hg | d x Hg Hx | d Hj | d x Hj Hx
                | d l He Hlen | d l i item He Hnth Hbad].
  - destruct v; simpl; eauto. now elim (Hv fields).
  - simpl. rewrite He. eauto.
  - simpl. rewrite He. destruct x; eauto. now elim (Hx items).
  - simpl. rewrite Hg.
    destruct (Py.dict_get "evaluations" d) as [[]|]; eauto.
  - simpl. rewrite Hg, Hx.
    destruct (Py.dict_get "evaluations" d) as [[]|]; eauto.
  - simpl. rewrite Hj.
    destruct (Py.dict_get "evaluations" d) as [[]|]; eauto.
    destruct (Py.dict_get "overall_grade" d) as [g|]; eauto.
    destruct (Py.isinstance_int g); eauto.
  - simpl. rewrite Hj.
    destruct (Py.dict_get "evaluations" d) as [[]|]; eauto.
    destruct (Py.dict_get "overall_grade" d) as [g|]; eauto.
    destruct (Py.isinstance_int g); eauto.
    destruct x; eauto. discriminate.
  - simpl. rewrite He.
    destruct (Py.dict_get "overall_grade" d) as [g|]; eauto.
    destruct (Py.isinstance_int g); eauto.
    destruct (Py.dict_get "overall_justification" d) as [[]|]; eauto.
    apply Nat.eqb_neq in Hlen. rewrite Hlen. eauto.
  - simpl. rewrite He.
    destruct (Py.dict_get "overall_grade" d) as [g|]; eauto.
    destruct (Py.isinstance_int g); eauto.
    destruct (Py.dict_get "overall_justification" d) as [[]|]; eauto.
    destruct (List.length l =? n)%nat; eauto.
    apply (validate_items_violation l 0 i item Hnth Hbad).
Qed.

Lemma truthy_answer_text (a : string) :
  PyStr.truthy (if PyStr.truthy a then PyStr.strip a else "")
  = PyStr.non_blank a.
Proof. unfold PyStr.non_blank. now destruct (PyStr.truthy a). Qed.

Lemma build_transcript_valid_stays (pairs : list (string * string)) :
  forall i transcript,
    snd (build_transcript i pairs transcript true) = true.
Proof.
  induction pairs as [|[q a] rest IH]; intros i transcript; simpl.
  - reflexivity.
  - destruct (PyStr.truthy (if PyStr.truthy a then PyStr.strip a else ""));
      apply IH.
Qed.

Lemma build_transcript_answered (pairs : list (string * string)) :
  Exists (fun a => PyStr.non_blank a = true) (map snd pairs) ->
  forall i transcript valid,
    snd (build_transcript i pairs transcript valid) = true.
Proof.
  induction pairs as [|[q a] rest IH]; intros H i transcript valid; simpl in *.
  - inversion H.
  - rewrite truthy_answer_text.
    inversion H as [? ? Ha | ? ? Hrest]; subst.
    + rewrite Ha. apply build_transcript_valid_stays.
    + destruct (PyStr.non_blank a).
      * apply build_transcript_valid_stays.
      * now apply IH.
Qed.

Lemma map_snd_combine {A B} (l : list A) :
  forall l' : list B,
    List.length l = List.length l' -> map snd (combine l l') = l'.
Proof.
  induction l as [|x l IH]; intros [|y l'] H; simpl in *; try discriminate.
  - reflexivity.
  - f_equal. apply IH. now injection H.
Qed.

(** The way through [evaluate_answers_openai] once the service has returned
    a text: everything hangs on [json.loads] and on the validation. *)
Lemma evaluate_answers_on_text
    (service : nat -> Request -> Reply) (json_loads : string -> Decoding)
    (questions answers : list string) (num_questions : Z) (role : string)
    (w : World) (response : Response) (text : string) :
  questions <> [] ->
  List.length questions = List.length answers ->
  Exists (fun a => PyStr.non_blank a = true) answers ->
  service (List.length (calls w))
    (evaluation_request questions answers num_questions role)
  = Returned response ->
  first_content response = inr (Some text) ->
  evaluate_answers_openai service json_loads questions answers
    num_questions role w
  = match json_loads text with
    | DecodeError json_err =>
        (None,
         after_call (evaluation_request questions answers num_questions role)
           [decode_failure json_err] w)
    | Decoded v =>
        match validate v (List.length questions) with
        | Some val_err =>
            (None,
             after_call
               (evaluation_request questions answers num_questions role)
               [validation_failure val_err] w)
        | None =>
            (Some v,
             mkWorld
               (calls w
                ++ [evaluation_request questions answers num_questions role])
               (page w))
        end
    end.
Proof.
  intros Hq Hlen Hans Hreply Htext.
  unfold evaluation_request in *.
  assert (Hv : snd (build_transcript 0 (combine questions answers) "" false)
               = true).
  { apply build_transcript_answered. now rewrite map_snd_combine. }
  destruct questions as [|q qs]; [congruence|].
  destruct answers as [|a l]; [discriminate|].
  unfold evaluate_answers_openai.
  rewrite Hlen, Nat.eqb_refl. cbn [negb].
  destruct (build_transcript 0 (combine (q :: qs) (a :: l)) "" false)
    as [transcript valid].
  simpl in Hv, Hreply. subst valid. cbn [negb].
  rewrite bind_create, Hreply, Htext.
  destruct (json_loads text) as [v | json_err]; [|reflexivity].
  rewrite <- Hlen.
  destruct (validate v (List.length (q :: qs))); reflexivity.
Qed.

(** C4.  When the service has answered with a text that [json.loads]
    decodes, and the decoded value breaks the required shape in any way
    (it is not an object; [evaluations], [overall_grade] or
    [overall_justification] is missing or of the wrong type; the list of
    evaluations has not one entry per question; some entry is not an
    object, or lacks [question_index], [grade] or [justification], or
    its [question_index] is not its position, or its [grade] or
    [justification] is of the wrong type), then [evaluate_answers_openai]
    returns [None], so nothing of the value is kept, and shows the notice
    of a validation failure, which is never the notice of a JSON decoding
    failure.  Types are those Python tests: [isinstance(_, int)] holds of
    the booleans too. *)
Theorem evaluate_answers_rejects_schema_violation
    (service : nat -> Request -> Reply) (json_loads : string -> Decoding)
    (questions answers : list string) (num_questions : Z) (role : string)
    (w : World) (response : Response) (text : string) (v : json) :
  questions <> [] ->
  List.length questions = List.length answers ->
  Exists (fun a => PyStr.non_blank a = true) answers ->
  service (List.length (calls w))
    (evaluation_request questions answers num_questions role)
  = Returned response ->
  first_content response = inr (Some text) ->
  json_loads text = Decoded v ->
  schema_violation (List.length questions) v ->
  exists val_err,
    evaluate_answers_openai service json_loads questions answers
      num_questions role w
    = (None,
       after_call (evaluation_request questions answers num_questions role)
         [validation_failure val_err] w)
    /\ forall json_err, validation_failure val_err <> decode_failure json_err.
Proof.
  intros Hq Hlen Hans Hreply Htext Hdec Hbad.
  destruct (validate_violation _ _ Hbad) as [val_err Hval].
  exists val_err. split.
  - rewrite (evaluate_answers_on_text _ _ _ _ _ _ _ _ _
               Hq Hlen Hans Hreply Htext).
    now rewrite Hdec, Hval.
  - intros json_err. unfold validation_failure, decode_failure.
    simpl. discriminate.
Qed.

Lemma evaluate_answers_rejects_schema_violation_witness :
  exists val_err,
    evaluate_answers_openai
      (Fixture.always (Fixture.says Fixture.no_overall_grade_text))
      (Fixture.loads
         [(Fixture.no_overall_grade_text, Fixture.no_overall_grade)])
      ["Q1"] ["my answer"] 3 "Data Analyst" Fixture.fresh
    = (None,
       after_call (evaluation_request ["Q1"] ["my answer"] 3 "Data Analyst")
         [validation_failure val_err] Fixture.fresh)
    /\ forall json_err, validation_failure val_err <> decode_failure json_err.
Proof.
  apply (evaluate_answers_rejects_schema_violation
           (Fixture.always (Fixture.says Fixture.no_overall_grade_text))
           (Fixture.loads
              [(Fixture.no_overall_grade_text, Fixture.no_overall_grade)])
           ["Q1"] ["my answer"] 3 "Data Analyst" Fixture.fresh
           (mkResponse [Some (Some Fixture.no_overall_grade_text)])
           Fixture.no_overall_grade_text Fixture.no_overall_grade).
  - discriminate.
  - reflexivity.
  - constructor. reflexivity.
  - reflexivity.
  - reflexivity.
  - reflexivity.
  - apply overall_grade_missing. reflexivity.
Defined.

(** X11.  Another end of the same path: when the text of the reply does
    not decode, [evaluate_answers_openai] returns [None] and shows the
    notice of a decoding failure, which carries the decoder's message. *)
Lemma evaluate_answers_decode_failure
    (service : nat -> Request -> Reply) (json_loads : string -> Decoding)
    (questions answers : list string) (num_questions : Z) (role : string)
    (w : World) (response : Response) (text json_err : string) :
  questions <> [] ->
  List.length questions = List.length answers ->
  Exists (fun a => PyStr.non_blank a = true) answers ->
  service (List.length (calls w))
    (evaluation_request questions answers num_questions role)
  = Returned response ->
  first_content response = inr (Some text) ->
  json_loads text = DecodeError json_err ->
  evaluate_answers_openai service json_loads questions answers
    num_questions role w
  = (None,
     after_call (evaluation_request questions answers num_questions role)
       [decode_failure json_err] w).
Proof.
  intros Hq Hlen Hans Hreply Htext Hdec.
  rewrite (evaluate_answers_on_text _ _ _ _ _ _ _ _ _
             Hq Hlen Hans Hreply Htext).
  now rewrite Hdec.
Qed.

(** A JSON boolean where an integer is asked for passes the validation,
    as [isinstance(True, int)] holds. *)
Remark validate_accepts_boolean_grade :
  validate
    (JDict [("evaluations",
             JList [JDict [("question_index", JInt 0);
                           ("grade", JBool true);
                           ("justification", JStr "fine")]]);
            ("overall_grade", JBool true);
            ("overall_justification", JStr "fine")])
    1
  = None.
Proof. reflexivity. Qed.

(** *** The invariant of the interviewing phase *)

Lemma length_set_nth {A} (l : list A) :
  forall n x, List.length (Py.set_nth l n x) = List.length l.
Proof.
  induction l as [|y l IH]; intros [|n] x; simpl; auto.
Qed.

Lemma getitem_in_range {A} (l : list A) (i : Z) :
  (0 <= i < Z.of_nat (List.length l))%Z -> exists x, Py.getitem l i = Some x.
Proof.
  intros H. unfold Py.getitem.
  destruct (Z.leb_spec 0 i); [|lia].
  destruct (nth_error l (Z.to_nat i)) eqn:E; [eauto|].
  apply nth_error_None in E. lia.
Qed.

Lemma setitem_in_range {A} (l : list A) (i : Z) (x : A) :
  (0 <= i < Z.of_nat (List.length l))%Z ->
  Py.setitem l i x = Some (Py.set_nth l (Z.to_nat i) x).
Proof.
  intros H. unfold Py.setitem.
  destruct (Z.leb_spec 0 i); [|lia].
  destruct (Z.ltb_spec i (Z.of_nat (List.length l))); [reflexivity | lia].
Qed.

Lemma start_interview_establishes
    (service : nat -> Request -> Reply) (json_loads : string -> Decoding)
    (final_role : string) (s : Session) (w : World) :
  interview_phase s = setup ->
  interview_phase (fst (start_interview service json_loads final_role s w))
  = interviewing ->
  let s' := fst (start_interview service json_loads final_role s w) in
  interviewing_invariant s'
  /\ Forall (fun a => a = "") (answers s')
  /\ current_question_index s' = 0%Z.
Proof.
  intros Hsetup. unfold start_interview, bind.
  destruct (generate_questions_openai service json_loads
              (num_questions_selected s) (questions_complexity s)
              final_role w) as [[[|q qs]|] w1]; simpl.
  - congruence.
  - intros _. repeat split.
    + exists (q :: qs). simpl. rewrite repeat_length. repeat split; lia.
    + constructor; [reflexivity|]. apply Forall_forall.
      intros a Ha. now apply repeat_spec in Ha.
  - congruence.
Qed.

Lemma interviewing_run_preserves
    (typed : string) (click : option Click) (s : Session) (w : World) :
  interview_phase s = interviewing ->
  interviewing_invariant s ->
  exists s',
    interviewing_run typed click s w = (Some s', w)
    /\ questions s' = questions s
    /\ List.length (answers s') = List.length (answers s)
    /\ (interview_phase s' = interviewing \/ interview_phase s' = finished)
    /\ (interview_phase s' = interviewing -> interviewing_invariant s').
Proof.
  intros Hphase (qs & Hqs & Hlen & Hidx).
  unfold interviewing_run. rewrite Hqs.
  destruct (Z.eqb_spec (Z.of_nat (List.length qs)) 0); [lia|].
  destruct (Z.leb_spec (Z.of_nat (List.length qs)) (current_question_index s));
    [lia|].
  cbn [orb].
  destruct (getitem_in_range qs (current_question_index s) Hidx) as [cq ->].
  assert (Hidx' : (0 <= current_question_index s
                   < Z.of_nat (List.length (answers s)))%Z) by lia.
  destruct (getitem_in_range (answers s) _ Hidx') as [old ->].
  rewrite (setitem_in_range _ _ typed Hidx').
  set (edited := Py.set_nth (answers s) (Z.to_nat (current_question_index s))
                   typed).
  assert (Hedited : List.length edited = List.length (answers s))
    by apply length_set_nth.
  destruct click as [[| |]|].
  - destruct (Z.ltb_spec 0 (current_question_index s)).
    + eexists. split; [reflexivity|]. simpl.
      repeat split; auto.
      intros _. exists qs. simpl. repeat split; auto; lia.
    + eexists. split; [reflexivity|]. simpl.
      repeat split; auto.
      intros _. exists qs. simpl. repeat split; auto; lia.
  - destruct (Z.eqb_spec (current_question_index s)
                (Z.of_nat (List.length qs) - 1)).
    + eexists. split; [reflexivity|]. simpl.
      repeat split; auto. discriminate.
    + eexists. split; [reflexivity|]. simpl.
      repeat split; auto.
      intros _. exists qs. simpl. repeat split; auto; lia.
  - eexists. split; [reflexivity|]. simpl.
    repeat split; auto. discriminate.
  - eexists. split; [reflexivity|]. simpl.
    repeat split; auto.
    intros _. exists qs. simpl. repeat split; auto; lia.
Qed.

(** C8.  The invariant of the interviewing phase, [len(answers) ==
    len(questions)] and [0 <= current_question_index < len(questions)]:
    the start of an interview from the setup page, when it enters the
    interviewing phase, establishes it with one empty answer per question
    and index 0; every run of the interviewing page (an edit of the current
    answer followed by Previous, by Submit & Next, by End Early or by no
    button) started in a state that satisfies it completes, keeps the
    questions and the number of answers, and ends either in the
    interviewing phase with the invariant or in the finished phase. *)
Theorem interviewing_invariant_holds :
  (forall service json_loads final_role s w,
      interview_phase s = setup ->
      interview_phase (fst (start_interview service json_loads final_role s w))
      = interviewing ->
      let s' := fst (start_interview service json_loads final_role s w) in
      interviewing_invariant s'
      /\ Forall (fun a => a = "") (answers s')
      /\ current_question_index s' = 0%Z)
  /\ (forall typed click s w,
         interview_phase s = interviewing ->
         interviewing_invariant s ->
         exists s',
           interviewing_run typed click s w = (Some s', w)
           /\ questions s' = questions s
           /\ List.length (answers s') = List.length (answers s)
           /\ (interview_phase s' = interviewing
               \/ interview_phase s' = finished)
           /\ (interview_phase s' = interviewing ->
               interviewing_invariant s')).
Proof.
  split.
  - exact start_interview_establishes.
  - exact interviewing_run_preserves.
Qed.

Lemma interviewing_invariant_holds_witness :
  (let s' :=
     fst (start_interview
            (Fixture.always (Fixture.says Fixture.two_questions_text))
            (Fixture.loads
               [(Fixture.two_questions_text, Fixture.two_questions)])
            "Data Analyst" default_session Fixture.fresh) in
   interviewing_invariant s'
   /\ Forall (fun a => a = "") (answers s')
   /\ current_question_index s' = 0%Z)
  /\ (exists s',
         interviewing_run "my answer" (Some NextOrFinish)
           Fixture.mid_interview Fixture.fresh
         = (Some s', Fixture.fresh)
         /\ questions s' = questions Fixture.mid_interview
         /\ List.length (answers s')
            = List.length (answers Fixture.mid_interview)
         /\ (interview_phase s' = interviewing
             \/ interview_phase s' = finished)
         /\ (interview_phase s' = interviewing ->
             interviewing_invariant s')).
Proof.
  split.
  - apply (proj1 interviewing_invariant_holds); reflexivity.
  - apply (proj2 interviewing_invariant_holds).
    + reflexivity.
    + exists ["Q1"; "Q2"; "Q3"]. simpl. repeat split; lia.
Defined.

(** *** The safety sweep of the finished page *)

Lemma non_blank_true (a : string) :
  PyStr.non_blank a = true ->
  PyStr.truthy a = true /\ PyStr.truthy (PyStr.strip a) = true.
Proof. unfold PyStr.non_blank. apply andb_prop. Qed.

Lemma check_answer_safety_non_blank
    (service : nat -> Request -> Reply) (a : string) (w : World) :
  PyStr.non_blank a = true ->
  fst (check_answer_safety service a w)
  = safety_verdict (service (List.length (calls w)) (AnswerSafety a))
  /\ calls (snd (check_answer_safety service a w))
     = (calls w ++ [AnswerSafety a])%list.
Proof.
  intros H. apply non_blank_true in H. destruct H as [H1 H2].
  unfold check_answer_safety. rewrite H1, H2. cbn [negb orb].
  rewrite bind_create. unfold safety_verdict, reply_token.
  destruct (service (List.length (calls w)) (AnswerSafety a)) as [resp | e].
  - destruct (guarded_content resp) as [text|]; simpl.
    + destruct (PyStr.upper (PyStr.strip text) =? "SAFE")%string;
        [split; reflexivity|].
      destruct (PyStr.upper (PyStr.strip text) =? "UNSAFE")%string;
        split; reflexivity.
    + split; reflexivity.
  - split; reflexivity.
Qed.

Lemma set_nth_middle {A} (done : list A) :
  forall a todo x,
    Py.set_nth (done ++ a :: todo) (List.length done) x
    = (done ++ x :: todo)%list.
Proof.
  induction done as [|y done IH]; intros a todo x; simpl.
  - reflexivity.
  - now rewrite IH.
Qed.

Lemma nth_error_middle {A} (done : list A) (a : A) (todo : list A) :
  nth_error (done ++ a :: todo) (List.length done) = Some a.
Proof.
  induction done as [|y done IH]; simpl; auto.
Qed.

Lemma bind_run {A B} (m : M A) (k : A -> M B) (w : World) :
  bind m k w = k (fst (m w)) (snd (m w)).
Proof. unfold bind. now destruct (m w). Qed.

Lemma sweep_from_swept (service : nat -> Request -> Reply)
    (todo : list string) :
  forall done i st w st' w',
    i = List.length done ->
    swept_answers st = (done ++ todo)%list ->
    sweep_from service (List.length todo) i st w = (st', w') ->
    swept_answers st'
    = (done ++ swept service (List.length (calls w)) todo)%list
    /\ calls w'
       = (calls w ++ map AnswerSafety (filter PyStr.non_blank todo))%list.
Proof.
  induction todo as [|a todo IH]; intros done i st w st' w' Hi Hst Hrun.
  - simpl in Hrun. injection Hrun as <- <-.
    simpl. rewrite Hst, !app_nil_r. auto.
  - cbn [List.length sweep_from swept filter] in *.
    rewrite Hst, Hi, nth_error_middle in Hrun.
    assert (Hdone : forall x : string,
               S (List.length done) = List.length (done ++ [x])).
    { intros x. rewrite length_app. simpl. lia. }
    destruct (PyStr.non_blank a) eqn:Hnb.
    + rewrite bind_run in Hrun.
      destruct (check_answer_safety_non_blank service a w Hnb) as [Hv Hc].
      rewrite Hv in Hrun.
      set (w1 := snd (check_answer_safety service a w)) in *.
      assert (Hk : List.length (calls w1) = S (List.length (calls w))).
      { rewrite Hc, length_app. simpl. lia. }
      destruct (safety_verdict
                  (service (List.length (calls w)) (AnswerSafety a)))
        as [[|]|]; cbn [swept_slot].
      * apply (IH (done ++ [a])%list) in Hrun;
          [|apply Hdone | now rewrite <- app_assoc].
        destruct Hrun as [-> ->].
        rewrite Hk, Hc, <- !app_assoc. auto.
      * rewrite bind_st_warning, set_nth_middle in Hrun.
        apply (IH (done ++ [flagged_placeholder])%list) in Hrun;
          [|apply Hdone | simpl; now rewrite <- app_assoc].
        destruct Hrun as [-> ->]. simpl.
        rewrite Hk, Hc, <- !app_assoc. auto.
      * rewrite bind_st_error in Hrun.
        apply (IH (done ++ [a])%list) in Hrun;
          [|apply Hdone | simpl; now rewrite <- app_assoc].
        destruct Hrun as [-> ->]. simpl.
        rewrite Hk, Hc, <- !app_assoc. auto.
    + apply (IH (done ++ [a])%list) in Hrun;
        [|apply Hdone | now rewrite <- app_assoc].
      destruct Hrun as [-> ->].
      rewrite <- !app_assoc. auto.
Qed.

Lemma length_swept (service : nat -> Request -> Reply) (l : list string) :
  forall k, List.length (swept service k l) = List.length l.
Proof.
  induction l as [|a l IH]; intros k; simpl.
  - reflexivity.
  - destruct (PyStr.non_blank a); simpl; now rewrite IH.
Qed.

Lemma nth_error_swept (service : nat -> Request -> Reply) (l : list string) :
  forall k i a,
    nth_error l i = Some a ->
    nth_error (swept service k l) i
    = Some (if PyStr.non_blank a
            then swept_slot
                   (safety_verdict
                      (service (k + checks_before l i)%nat (AnswerSafety a)))
                   a
            else a).
Proof.
  induction l as [|x l IH]; intros k [|i] a H; simpl in H; try discriminate.
  - injection H as ->. unfold checks_before. simpl.
    rewrite Nat.add_0_r. now destruct (PyStr.non_blank a).
  - unfold checks_before in *. simpl.
    destruct (PyStr.non_blank x); simpl; rewrite (IH _ _ _ H).
    + now replace (S k + List.length (filter PyStr.non_blank (firstn i l)))%nat
        with (k + S (List.length (filter PyStr.non_blank (firstn i l))))%nat
        by lia.
    + reflexivity.
Qed.

(** C3 (amended).  On entry into the finished page the Answer Safety
    Checker is asked exactly about the answers that are non-empty after
    stripping, in order and with their text; the number of answers does
    not change; a blank answer stays as it is; a non-blank answer is
    replaced in place by the flagged placeholder when its verdict is
    unsafe (the reply was anything but SAFE), and stays as it is when its
    verdict is safe or when its check errored (the client raised, or the
    reply had no content). *)
Theorem safety_sweep_replaces_unsafe
    (service : nat -> Request -> Reply) (s : Session) (w : World)
    (i : nat) (a : string) :
  nth_error (answers s) i = Some a ->
  let out := safety_sweep service s w in
  let s' := fst (fst out) in
  calls (snd out)
  = (calls w ++ map AnswerSafety (filter PyStr.non_blank (answers s)))%list
  /\ List.length (answers s') = List.length (answers s)
  /\ nth_error (answers s') i
     = Some (if PyStr.non_blank a
             then match safety_verdict
                          (service
                             (List.length (calls w)
                              + checks_before (answers s) i)%nat
                             (AnswerSafety a)) with
                  | Some false => flagged_placeholder
                  | _ => a
                  end
             else a).
Proof.
  intros Hnth. unfold safety_sweep. cbv zeta.
  rewrite bind_run.
  destruct (sweep_from service (List.length (answers s)) 0
              {| swept_answers := answers s;
                 all_answers_safe := true;
                 unsafe_indices := [] |} w) as [st w1] eqn:Hrun.
  apply (sweep_from_swept service (answers s) []) in Hrun;
    [|reflexivity|reflexivity].
  destruct Hrun as [Hans Hcalls]. simpl in Hans. cbn [fst snd].
  assert (Hout : forall m : M unit,
             (m = ret tt \/ exists text, m = st_error text) ->
             calls (snd ((m ;;; ret (with_answers (swept_answers st) s, st)) w1))
             = calls w1
             /\ answers (fst (fst ((m ;;; ret (with_answers (swept_answers st) s,
                                              st)) w1)))
                = swept_answers st).
  { intros m [-> | [text ->]]; split; reflexivity. }
  match goal with
  | |- context [bind ?m _ w1] => destruct (Hout m) as [-> ->]
  end.
  { destruct (all_answers_safe st); eauto. }
  rewrite Hans, Hcalls, length_swept.
  repeat split.
  now rewrite (nth_error_swept service _ _ _ _ Hnth).
Qed.

Lemma safety_sweep_replaces_unsafe_witness :
  let service := Fixture.always (Fixture.says "UNSAFE") in
  let out := safety_sweep service Fixture.hard_finished Fixture.fresh in
  calls (snd out) = [AnswerSafety "a1"; AnswerSafety "a3"]
  /\ List.length (answers (fst (fst out))) = 3%nat
  /\ nth_error (answers (fst (fst out))) 2 = Some flagged_placeholder.
Proof.
  exact (safety_sweep_replaces_unsafe
           (Fixture.always (Fixture.says "UNSAFE"))
           Fixture.hard_finished Fixture.fresh 2 "a3" eq_refl).
Defined.

(** C3, as stated, fails: an answer whose safety check errored keeps its
    text.  With a client that raises, the checker returns the error signal
    for "a1" and the sweep leaves all three answers as they were. *)
Lemma errored_answer_not_replaced :
  let service := Fixture.always (Raised "Connection error.") in
  fst (check_answer_safety service "a1" Fixture.fresh) = None
  /\ answers (fst (fst (safety_sweep service Fixture.hard_finished
                          Fixture.fresh)))
     = ["a1"; ""; "a3"]
  /\ nth_error
       (answers (fst (fst (safety_sweep service Fixture.hard_finished
                             Fixture.fresh)))) 0
     <> Some flagged_placeholder.
Proof.
  repeat split. discriminate.
Qed.

(** *** The outcomes of the two moderation helpers *)

(** C5 (amended).  [check_role] has three outcomes: the role itself when
    the reply is VALID, the empty string when it is INVALID, and the error
    signal [None] when the client raised, the reply had no content, or the
    reply is neither token.  [check_answer_safety], on a non-blank answer,
    returns safe when the reply is SAFE, unsafe when the reply is any
    other text (UNSAFE, or a text that is neither token), and the error
    signal [None] only when the client raised or the reply had no
    content. *)
Theorem moderation_outcomes
    (service : nat -> Request -> Reply) (role answer : string) (w : World) :
  PyStr.non_blank answer = true ->
  let checked := fst (check_role service role w) in
  let t := reply_token (service (List.length (calls w)) (RoleCheck role)) in
  let is_safe := fst (check_answer_safety service answer w) in
  let u :=
    reply_token (service (List.length (calls w)) (AnswerSafety answer)) in
  (t = Some "VALID" -> checked = Some role)
  /\ (t = Some "INVALID" -> checked = Some "")
  /\ (t = None \/ (exists x, t = Some x /\ x <> "VALID" /\ x <> "INVALID") ->
      checked = None)
  /\ (u = Some "SAFE" -> is_safe = Some true)
  /\ ((exists x, u = Some x /\ x <> "SAFE") -> is_safe = Some false)
  /\ (u = None -> is_safe = None).
Proof.
  intros Hnb. cbv zeta.
  assert (Hrole :
            fst (check_role service role w)
            = match reply_token
                      (service (List.length (calls w)) (RoleCheck role)) with
              | Some x => if (x =? "VALID")%string then Some role
                          else if (x =? "INVALID")%string then Some ""
                          else None
              | None => None
              end).
  { unfold check_role. rewrite bind_create. unfold reply_token.
    destruct (service (List.length (calls w)) (RoleCheck role)) as [resp|e];
      [|reflexivity].
    destruct (guarded_content resp) as [text|]; [|reflexivity]. simpl.
    destruct (PyStr.upper (PyStr.strip text) =? "VALID")%string;
      [reflexivity|].
    destruct (PyStr.upper (PyStr.strip text) =? "INVALID")%string;
      reflexivity. }
  destruct (check_answer_safety_non_blank service answer w Hnb) as [Hsafe _].
  rewrite Hrole, Hsafe. unfold safety_verdict.
  repeat split.
  - now intros ->.
  - now intros ->.
  - intros [-> | (x & -> & Hx1 & Hx2)]; [reflexivity|].
    apply String.eqb_neq in Hx1, Hx2. now rewrite Hx1, Hx2.
  - now intros ->.
  - intros (x & -> & Hx). apply String.eqb_neq in Hx. now rewrite Hx.
  - now intros ->.
Qed.

Lemma moderation_outcomes_witness :
  let service := Fixture.always (Fixture.says " maybe ") in
  let checked := fst (check_role service "Data Analyst" Fixture.fresh) in
  let t := reply_token (service 0%nat (RoleCheck "Data Analyst")) in
  let is_safe :=
    fst (check_answer_safety service "my answer" Fixture.fresh) in
  let u := reply_token (service 0%nat (AnswerSafety "my answer")) in
  (t = Some "VALID" -> checked = Some "Data Analyst")
  /\ (t = Some "INVALID" -> checked = Some "")
  /\ (t = None \/ (exists x, t = Some x /\ x <> "VALID" /\ x <> "INVALID") ->
      checked = None)
  /\ (u = Some "SAFE" -> is_safe = Some true)
  /\ ((exists x, u = Some x /\ x <> "SAFE") -> is_safe = Some false)
  /\ (u = None -> is_safe = None).
Proof.
  exact (moderation_outcomes (Fixture.always (Fixture.says " maybe "))
           "Data Analyst" "my answer" Fixture.fresh eq_refl).
Defined.

(** C5, as stated, fails for the Answer Safety Checker: a reply that is
    neither token gives the same result as the reply UNSAFE, not the error
    signal. *)
Lemma unclear_safety_reply_is_unsafe :
  fst (check_answer_safety (Fixture.always (Fixture.says "MAYBE"))
         "my answer" Fixture.fresh)
  = Some false
  /\ fst (check_answer_safety (Fixture.always (Fixture.says "UNSAFE"))
            "my answer" Fixture.fresh)
     = Some false
  /\ fst (check_answer_safety (Fixture.always (Fixture.says "MAYBE"))
            "my answer" Fixture.fresh)
     <> None.
Proof.
  repeat split. discriminate.
Qed.

(** *** [generate_questions_openai] *)

Lemma length_slice_to {A} (l : list A) (n : Z) :
  (0 <= n)%Z -> (Z.of_nat (List.length (Py.slice_to l n)) <= n)%Z.
Proof.
  intros H. unfold Py.slice_to.
  destruct (Z.leb_spec 0 n); [|lia].
  pose proof (firstn_le_length (Z.to_nat n) l). lia.
Qed.

(** The half of the claim that holds: never more than the requested
    count. *)
Lemma generate_questions_at_most
    (service : nat -> Request -> Reply) (json_loads : string -> Decoding)
    (num_questions : Z) (complexity role : string) (w : World)
    (generated : list string) :
  (0 <= num_questions)%Z ->
  fst (generate_questions_openai service json_loads num_questions
         complexity role w)
  = Some generated ->
  (Z.of_nat (List.length generated) <= num_questions)%Z.
Proof.
  intros Hn. unfold generate_questions_openai. rewrite bind_create.
  destruct (service _ _) as [resp|e]; [|discriminate].
  destruct (first_content resp) as [e|[content|]]; try discriminate.
  unfold parse_questions.
  destruct (json_loads content) as [data|msg].
  - destruct data; simpl; try (intros [= <-]; simpl; lia).
    destruct (Py.dict_get "questions" fields) as [[]|];
      simpl; try (intros [= <-]; simpl; lia).
    destruct (Py.all_str items) as [qs|]; simpl.
    + intros [= <-]. now apply length_slice_to.
    + intros [= <-]. simpl. lia.
  - simpl. intros [= <-]. simpl. lia.
Qed.

(** C1 (failing input).  Asked for 3 questions, with a reply whose
    [questions] list holds 2 strings, [generate_questions_openai] returns
    those 2 strings: a list that is neither empty nor of the requested
    length, and no notice is shown. *)
Theorem generate_questions_partial_list :
  generate_questions_openai
    (Fixture.always (Fixture.says Fixture.two_questions_text))
    (Fixture.loads [(Fixture.two_questions_text, Fixture.two_questions)])
    3 "Easy" "Data Analyst" Fixture.fresh
  = (Some ["Tell me about a dashboard you built.";
           "How do you validate a data source?"],
     mkWorld [QuestionGeneration 3 "Easy" "Data Analyst"] []).
Proof. reflexivity. Qed.

(** *** Failures of the client *)

Lemma check_role_failure
    (service : nat -> Request -> Reply) (role e : string) (w : World) :
  service (List.length (calls w)) (RoleCheck role) = Raised e ->
  check_role service role w
  = (None,
     after_call (RoleCheck role)
       [StError ("An unexpected error occurred during role name validation: "
                 ++ e)] w).
Proof.
  intros H. unfold check_role. now rewrite bind_create, H.
Qed.

Lemma check_answer_safety_failure
    (service : nat -> Request -> Reply) (answer e : string) (w : World) :
  PyStr.non_blank answer = true ->
  service (List.length (calls w)) (AnswerSafety answer) = Raised e ->
  check_answer_safety service answer w
  = (None,
     after_call (AnswerSafety answer)
       [StError ("An unexpected error occurred during answer safety check: "
                 ++ e)] w).
Proof.
  intros Hnb H. apply non_blank_true in Hnb. destruct Hnb as [H1 H2].
  unfold check_answer_safety. rewrite H1, H2. cbn [negb orb].
  now rewrite bind_create, H.
Qed.

Lemma evaluate_answers_failure
    (service : nat -> Request -> Reply) (json_loads : string -> Decoding)
    (questions answers : list string) (num_questions : Z) (role e : string)
    (w : World) :
  questions <> [] ->
  List.length questions = List.length answers ->
  Exists (fun a => PyStr.non_blank a = true) answers ->
  service (List.length (calls w))
    (evaluation_request questions answers num_questions role)
  = Raised e ->
  evaluate_answers_openai service json_loads questions answers
    num_questions role w
  = (None,
     after_call (evaluation_request questions answers num_questions role)
       [StError ("An unexpected error occurred during evaluation: " ++ e)] w).
Proof.
  intros Hq Hlen Hans Hreply.
  unfold evaluation_request in *.
  assert (Hv : snd (build_transcript 0 (combine questions answers) "" false)
               = true).
  { apply build_transcript_answered. now rewrite map_snd_combine. }
  destruct questions as [|q qs]; [congruence|].
  destruct answers as [|a l]; [discriminate|].
  unfold evaluate_answers_openai.
  rewrite Hlen, Nat.eqb_refl. cbn [negb].
  destruct (build_transcript 0 (combine (q :: qs) (a :: l)) "" false)
    as [transcript valid].
  simpl in Hv, Hreply. subst valid. cbn [negb].
  now rewrite bind_create, Hreply.
Qed.

(** C7 (failing input).  When the client raises during question
    generation, [generate_questions_openai] returns [None] by falling off
    its end and the page shows nothing: its handler only prints, where the
    handlers of the three other helpers call [st.error] (see
    [check_role_failure], [check_answer_safety_failure],
    [evaluate_answers_failure]). *)
Theorem generate_questions_failure_shows_nothing :
  generate_questions_openai
    (Fixture.always (Raised "Connection error."))
    (Fixture.loads []) 3 "Easy" "Data Analyst" Fixture.fresh
  = (None, mkWorld [QuestionGeneration 3 "Easy" "Data Analyst"] []).
Proof. reflexivity. Qed.

(** *** Start New Interview *)

(** C2 (amended).  "Start New Interview" restores the phase, the
    questions, the answers, the current question index, the evaluation
    result, the selected option, the custom role text and the effective
    role to their values at process start, and leaves the complexity label
    as it is. *)
Theorem start_new_interview_resets (s : Session) :
  let s' := start_new_interview s in
  interview_phase s' = interview_phase default_session
  /\ questions s' = questions default_session
  /\ answers s' = answers default_session
  /\ current_question_index s' = current_question_index default_session
  /\ evaluation_results s' = evaluation_results default_session
  /\ selected_option s' = selected_option default_session
  /\ custom_role_input s' = custom_role_input default_session
  /\ effective_role s' = effective_role default_session
  /\ questions_complexity s' = questions_complexity s.
Proof. repeat split. Qed.

(** C2, as stated, fails: after a "Hard" interview the complexity label is
    still "Hard", not the "Medium" of process start. *)
Lemma start_new_interview_keeps_complexity :
  questions_complexity (start_new_interview Fixture.hard_finished) = "Hard"
  /\ questions_complexity default_session = "Medium"
  /\ start_new_interview Fixture.hard_finished <> default_session.
Proof.
  repeat split. discriminate.
Qed.

(** ** Further properties *)

(** *** The blank test *)

Lemma lstrip_chars_nil (l : list ascii) :
  PyStr.lstrip_chars l = [] -> Forall (fun c => PyStr.is_space c = true) l.
Proof.
  induction l as [|c l IH]; simpl; intros H.
  - constructor.
  - destruct (PyStr.is_space c) eqn:Hc; [|discriminate].
    constructor; auto.
Qed.

Lemma lstrip_chars_head (l : list ascii) (c : ascii) (l' : list ascii) :
  PyStr.lstrip_chars l = c :: l' -> PyStr.is_space c = false.
Proof.
  induction l as [|x l IH]; simpl; intros H.
  - discriminate.
  - destruct (PyStr.is_space x) eqn:Hx; [auto|].
    injection H as <- _. exact Hx.
Qed.

Lemma lstrip_chars_keeps (l : list ascii) (c : ascii) :
  PyStr.is_space c = false -> PyStr.lstrip_chars (l ++ [c]) <> [].
Proof.
  intros Hc. induction l as [|x l IH]; simpl.
  - now rewrite Hc.
  - destruct (PyStr.is_space x); [exact IH | discriminate].
Qed.

Lemma rstrip_chars_nil (l : list ascii) :
  PyStr.rstrip_chars l = [] -> Forall (fun c => PyStr.is_space c = true) l.
Proof.
  unfold PyStr.rstrip_chars. intros H.
  apply (f_equal (@rev ascii)) in H. rewrite rev_involutive in H. simpl in H.
  apply lstrip_chars_nil in H.
  apply Forall_rev in H. now rewrite rev_involutive in H.
Qed.

Lemma string_of_list_ascii_nil (l : list ascii) :
  string_of_list_ascii l = "" -> l = [].
Proof. now destruct l. Qed.

Lemma strip_empty_whitespace_only (s : string) :
  PyStr.strip s = "" -> PyStr.whitespace_only s.
Proof.
  unfold PyStr.strip, PyStr.whitespace_only. intros H.
  apply string_of_list_ascii_nil in H.
  destruct (PyStr.lstrip_chars (list_ascii_of_string s)) as [|c l'] eqn:E.
  - now apply lstrip_chars_nil.
  - exfalso. pose proof (lstrip_chars_head _ _ _ E) as Hc.
    unfold PyStr.rstrip_chars in H.
    apply (f_equal (@rev ascii)) in H. rewrite rev_involutive in H.
    simpl in H. revert H. now apply lstrip_chars_keeps.
Qed.

(** X1.  The test [a and a.strip()], by which the wizard and the helpers
    decide that an answer was typed, fails exactly on the texts that are
    empty or made of white space only. *)
Theorem non_blank_false_iff (a : string) :
  PyStr.non_blank a = false <-> PyStr.whitespace_only a.
Proof.
  split.
  - unfold PyStr.non_blank. intros H.
    apply andb_false_iff in H. destruct H as [H | H].
    + destruct a; [constructor | discriminate].
    + apply strip_empty_whitespace_only.
      now destruct (PyStr.strip a).
  - apply non_blank_whitespace_only.
Qed.

Lemma non_blank_false_iff_witness :
  PyStr.non_blank (String (ascii_of_nat 160) (String (ascii_of_nat 9) ""))
  = false.
Proof.
  apply (proj2 (non_blank_false_iff
                  (String (ascii_of_nat 160) (String (ascii_of_nat 9) "")))).
  repeat constructor.
Defined.

(** *** More on [generate_questions_openai] *)

(** X2.  For a requested count that is not negative,
    [generate_questions_openai] never returns more strings than were
    requested, whatever the service replies. *)
Theorem generate_questions_never_more
    (service : nat -> Request -> Reply) (json_loads : string -> Decoding)
    (num_questions : Z) (complexity role : string) (w : World)
    (generated : list string) :
  (0 <= num_questions)%Z ->
  fst (generate_questions_openai service json_loads num_questions
         complexity role w)
  = Some generated ->
  (Z.of_nat (List.length generated) <= num_questions)%Z.
Proof. apply generate_questions_at_most. Qed.

Lemma generate_questions_never_more_witness :
  (Z.of_nat
     (List.length
        ["Tell me about a dashboard you built.";
         "How do you validate a data source?"]) <= 3)%Z.
Proof.
  apply (generate_questions_never_more
           (Fixture.always (Fixture.says Fixture.two_questions_text))
           (Fixture.loads
              [(Fixture.two_questions_text, Fixture.two_questions)])
           3 "Easy" "Data Analyst" Fixture.fresh).
  - discriminate.
  - reflexivity.
Defined.

Lemma all_str_map (qs : list string) : Py.all_str (map JStr qs) = Some qs.
Proof.
  induction qs as [|q qs IH]; simpl.
  - reflexivity.
  - now rewrite IH.
Qed.

Lemma all_str_some (items : list json) :
  forall qs, Py.all_str items = Some qs -> items = map JStr qs.
Proof.
  induction items as [|x items IH]; intros qs H; simpl in H.
  - now injection H as <-.
  - destruct x; try discriminate.
    destruct (Py.all_str items) as [qs'|]; [|discriminate].
    injection H as <-. simpl. f_equal. now apply IH.
Qed.

(** X3.  When the reply decodes to an object whose [questions] entry is a
    list of at least [num_questions] strings, [generate_questions_openai]
    returns exactly the first [num_questions] of them, in order, and shows
    nothing. *)
Theorem generate_questions_enough
    (service : nat -> Request -> Reply) (json_loads : string -> Decoding)
    (num_questions : Z) (complexity role : string) (w : World)
    (response : Response) (content : string)
    (d : list (string * json)) (qs : list string) :
  service (List.length (calls w))
    (QuestionGeneration num_questions complexity role)
  = Returned response ->
  first_content response = inr (Some content) ->
  json_loads content = Decoded (JDict d) ->
  Py.dict_get "questions" d = Some (JList (map JStr qs)) ->
  (0 <= num_questions <= Z.of_nat (List.length qs))%Z ->
  generate_questions_openai service json_loads num_questions complexity
    role w
  = (Some (firstn (Z.to_nat num_questions) qs),
     mkWorld
       (calls w ++ [QuestionGeneration num_questions complexity role])
       (page w))
  /\ Z.of_nat (List.length (firstn (Z.to_nat num_questions) qs))
     = num_questions.
Proof.
  intros Hreply Hcontent Hdec Hget Hn. split.
  - unfold generate_questions_openai.
    rewrite bind_create, Hreply, Hcontent.
    unfold parse_questions. rewrite Hdec, Hget, all_str_map.
    unfold Py.slice_to.
    destruct (Z.leb_spec 0 num_questions); [reflexivity | lia].
  - rewrite length_firstn. lia.
Qed.

Lemma generate_questions_enough_witness :
  generate_questions_openai
    (Fixture.always (Fixture.says Fixture.two_questions_text))
    (Fixture.loads [(Fixture.two_questions_text, Fixture.two_questions)])
    1 "Easy" "Data Analyst" Fixture.fresh
  = (Some (firstn (Z.to_nat 1)
             ["Tell me about a dashboard you built.";
              "How do you validate a data source?"]),
     mkWorld
       (calls Fixture.fresh ++ [QuestionGeneration 1 "Easy" "Data Analyst"])
       (page Fixture.fresh))
  /\ Z.of_nat
       (List.length
          (firstn (Z.to_nat 1)
             ["Tell me about a dashboard you built.";
              "How do you validate a data source?"]))
     = 1%Z.
Proof.
  apply (generate_questions_enough
           (Fixture.always (Fixture.says Fixture.two_questions_text))
           (Fixture.loads
              [(Fixture.two_questions_text, Fixture.two_questions)])
           1 "Easy" "Data Analyst" Fixture.fresh
           (mkResponse [Some (Some Fixture.two_questions_text)])
           Fixture.two_questions_text
           [("questions",
             JList [JStr "Tell me about a dashboard you built.";
                    JStr "How do you validate a data source?"])]).
  - reflexivity.
  - reflexivity.
  - reflexivity.
  - reflexivity.
  - simpl. lia.
Defined.

(** X4.  When the text of the reply does not decode, or decodes to
    anything but an object whose [questions] entry is a list of strings,
    [generate_questions_openai] returns the empty list and shows exactly
    one error. *)
Theorem generate_questions_bad_shape
    (service : nat -> Request -> Reply) (json_loads : string -> Decoding)
    (num_questions : Z) (complexity role : string) (w : World)
    (response : Response) (content : string) :
  service (List.length (calls w))
    (QuestionGeneration num_questions complexity role)
  = Returned response ->
  first_content response = inr (Some content) ->
  (forall d qs,
      json_loads content = Decoded (JDict d) ->
      Py.dict_get "questions" d <> Some (JList (map JStr qs))) ->
  exists text,
    generate_questions_openai service json_loads num_questions complexity
      role w
    = (Some [],
       after_call (QuestionGeneration num_questions complexity role)
         [StError text] w).
Proof.
  intros Hreply Hcontent Hbad.
  unfold generate_questions_openai.
  rewrite bind_create, Hreply, Hcontent. unfold parse_questions.
  destruct (json_loads content) as [v|msg]; [|eexists; reflexivity].
  destruct v; try (eexists; reflexivity).
  destruct (Py.dict_get "questions" fields) as [x|] eqn:Hget;
    [|eexists; reflexivity].
  destruct x; try (eexists; reflexivity).
  destruct (Py.all_str items) as [qs|] eqn:Hall; [|eexists; reflexivity].
  apply all_str_some in Hall. subst items.
  now elim (Hbad fields qs).
Qed.

Lemma generate_questions_bad_shape_witness :
  exists text,
    generate_questions_openai
      (Fixture.always (Fixture.says "not json"))
      (Fixture.loads []) 3 "Easy" "Data Analyst" Fixture.fresh
    = (Some [],
       after_call (QuestionGeneration 3 "Easy" "Data Analyst")
         [StError text] Fixture.fresh).
Proof.
  apply (generate_questions_bad_shape
           (Fixture.always (Fixture.says "not json"))
           (Fixture.loads []) 3 "Easy" "Data Analyst" Fixture.fresh
           (mkResponse [Some (Some "not json")]) "not json").
  - reflexivity.
  - reflexivity.
  - intros d qs H. discriminate H.
Defined.

(** X5.  When the client raises, or its response has no first choice, no
    message or no content, [generate_questions_openai] returns [None] and
    shows nothing: the request is the only trace. *)
Theorem generate_questions_no_content
    (service : nat -> Request -> Reply) (json_loads : string -> Decoding)
    (num_questions : Z) (complexity role : string) (w : World) :
  (forall response content,
      service (List.length (calls w))
        (QuestionGeneration num_questions complexity role)
      = Returned response ->
      first_content response <> inr (Some content)) ->
  generate_questions_openai service json_loads num_questions complexity
    role w
  = (None,
     mkWorld (calls w ++ [QuestionGeneration num_questions complexity role])
       (page w)).
Proof.
  intros H. unfold generate_questions_openai. rewrite bind_create.
  destruct (service _ _) as [response|e] eqn:Hreply; [|reflexivity].
  destruct (first_content response) as [e|[content|]] eqn:Hc;
    try reflexivity.
  now elim (H response content).
Qed.

Lemma generate_questions_no_content_witness :
  generate_questions_openai
    (Fixture.always (Returned (mkResponse [])))
    (Fixture.loads []) 3 "Easy" "Data Analyst" Fixture.fresh
  = (None,
     mkWorld
       (calls Fixture.fresh ++ [QuestionGeneration 3 "Easy" "Data Analyst"])
       (page Fixture.fresh)).
Proof.
  apply generate_questions_no_content.
  intros response content H. injection H as <-. discriminate.
Defined.

(** *** Requests and results of the helpers *)

Lemma check_answer_safety_skips_blank
    (service : nat -> Request -> Reply) (answer : string) (w : World) :
  PyStr.non_blank answer = false ->
  check_answer_safety service answer w = (Some true, w).
Proof.
  unfold PyStr.non_blank, check_answer_safety. intros H.
  destruct (PyStr.truthy answer); simpl in *; [now rewrite H | reflexivity].
Qed.

Lemma check_role_calls
    (service : nat -> Request -> Reply) (role : string) (w : World) :
  calls (snd (check_role service role w)) = (calls w ++ [RoleCheck role])%list.
Proof.
  unfold check_role. rewrite bind_create.
  destruct (service _ _) as [response|e]; [|reflexivity].
  destruct (guarded_content response) as [text|]; [|reflexivity].
  cbv zeta.
  destruct (PyStr.upper (PyStr.strip text) =? "VALID")%string;
    [reflexivity|].
  destruct (PyStr.upper (PyStr.strip text) =? "INVALID")%string;
    reflexivity.
Qed.

Lemma generate_questions_calls
    (service : nat -> Request -> Reply) (json_loads : string -> Decoding)
    (n : Z) (complexity role : string) (w : World) :
  calls (snd (generate_questions_openai service json_loads n complexity
                role w))
  = (calls w ++ [QuestionGeneration n complexity role])%list.
Proof.
  unfold generate_questions_openai. rewrite bind_create.
  destruct (service _ _) as [response|e]; [|reflexivity].
  destruct (first_content response) as [e|[content|]]; try reflexivity.
  unfold parse_questions.
  destruct (json_loads content) as [v|msg]; [|reflexivity].
  destruct v; try reflexivity.
  destruct (Py.dict_get "questions" fields) as [[]|]; try reflexivity.
  destruct (Py.all_str items); reflexivity.
Qed.

Lemma check_role_by_token
    (service : nat -> Request -> Reply) (role : string) (w : World) :
  fst (check_role service role w)
  = match reply_token (service (List.length (calls w)) (RoleCheck role)) with
    | Some x => if (x =? "VALID")%string then Some role
                else if (x =? "INVALID")%string then Some ""
                else None
    | None => None
    end.
Proof.
  unfold check_role. rewrite bind_create. unfold reply_token.
  destruct (service (List.length (calls w)) (RoleCheck role)) as [resp|e];
    [|reflexivity].
  destruct (guarded_content resp) as [text|]; [|reflexivity]. simpl.
  destruct (PyStr.upper (PyStr.strip text) =? "VALID")%string;
    [reflexivity|].
  destruct (PyStr.upper (PyStr.strip text) =? "INVALID")%string;
    reflexivity.
Qed.

Lemma evaluate_answers_calls
    (service : nat -> Request -> Reply) (json_loads : string -> Decoding)
    (questions answers : list string) (n : Z) (role : string) (w : World) :
  calls (snd (evaluate_answers_openai service json_loads questions answers
                n role w))
  = calls w
  \/ calls (snd (evaluate_answers_openai service json_loads questions
                   answers n role w))
     = (calls w ++ [evaluation_request questions answers n role])%list.
Proof.
  unfold evaluation_request.
  destruct questions as [|q qs]; [now left|].
  destruct answers as [|a l]; [now left|].
  unfold evaluate_answers_openai.
  destruct (List.length (q :: qs) =? List.length (a :: l))%nat;
    [|now left].
  cbn [negb].
  destruct (build_transcript 0 (combine (q :: qs) (a :: l)) "" false)
    as [transcript [|]]; [|now left].
  right. cbn [negb fst]. rewrite bind_create.
  destruct (service _ _) as [response|e]; [|reflexivity].
  destruct (first_content response) as [e|[content|]]; try reflexivity.
  destruct (json_loads content) as [v|msg]; [|reflexivity].
  destruct (validate v (List.length (q :: qs))); reflexivity.
Qed.

(** X6.  No helper asks the service twice.  [check_role] and
    [generate_questions_openai] send exactly one request per call;
    [check_answer_safety] and [evaluate_answers_openai] send one request or
    none. *)
Theorem helpers_never_retry
    (service : nat -> Request -> Reply) (json_loads : string -> Decoding)
    (w : World) :
  (forall role,
      calls (snd (check_role service role w))
      = (calls w ++ [RoleCheck role])%list)
  /\ (forall n complexity role,
         calls (snd (generate_questions_openai service json_loads n
                       complexity role w))
         = (calls w ++ [QuestionGeneration n complexity role])%list)
  /\ (forall answer,
         calls (snd (check_answer_safety service answer w)) = calls w
         \/ calls (snd (check_answer_safety service answer w))
            = (calls w ++ [AnswerSafety answer])%list)
  /\ (forall questions answers n role,
         calls (snd (evaluate_answers_openai service json_loads questions
                       answers n role w))
         = calls w
         \/ calls (snd (evaluate_answers_openai service json_loads questions
                          answers n role w))
            = (calls w ++ [evaluation_request questions answers n role])%list).
Proof.
  repeat split.
  - intros role. apply check_role_calls.
  - intros n complexity role. apply generate_questions_calls.
  - intros answer. destruct (PyStr.non_blank answer) eqn:Hnb.
    + right. now destruct (check_answer_safety_non_blank service answer w Hnb).
    + left. now rewrite check_answer_safety_skips_blank.
  - intros questions answers n role. apply evaluate_answers_calls.
Qed.

(** X7.  [check_role] never returns a role other than the one it was
    given: its result is that very string, the empty string or [None]. *)
Theorem check_role_returns_its_argument
    (service : nat -> Request -> Reply) (role checked : string) (w : World) :
  fst (check_role service role w) = Some checked ->
  checked = role \/ checked = "".
Proof.
  unfold check_role. rewrite bind_create.
  destruct (service _ _) as [response|e]; [|discriminate].
  destruct (guarded_content response) as [text|]; [|discriminate].
  cbv zeta.
  destruct (PyStr.upper (PyStr.strip text) =? "VALID")%string.
  - intros [= <-]. now left.
  - destruct (PyStr.upper (PyStr.strip text) =? "INVALID")%string.
    + intros [= <-]. now right.
    + discriminate.
Qed.

Lemma check_role_returns_its_argument_witness :
  "Data Analyst" = "Data Analyst" \/ "Data Analyst" = "".
Proof.
  apply (check_role_returns_its_argument
           (Fixture.always (Fixture.says "Valid")) "Data Analyst"
           "Data Analyst" Fixture.fresh).
  reflexivity.
Defined.

(** X8.  When the client raises, [check_role], [check_answer_safety] (on a
    non-blank answer) and [evaluate_answers_openai] (on aligned lists with
    some answer typed) each return [None] and show exactly one error,
    which ends with the text of the exception. *)
Theorem client_failure_reported
    (service : nat -> Request -> Reply) (json_loads : string -> Decoding)
    (e : string) (w : World) :
  (forall role,
      service (List.length (calls w)) (RoleCheck role) = Raised e ->
      check_role service role w
      = (None,
         after_call (RoleCheck role)
           [StError
              ("An unexpected error occurred during role name validation: "
               ++ e)] w))
  /\ (forall answer,
         PyStr.non_blank answer = true ->
         service (List.length (calls w)) (AnswerSafety answer) = Raised e ->
         check_answer_safety service answer w
         = (None,
            after_call (AnswerSafety answer)
              [StError
                 ("An unexpected error occurred during answer safety check: "
                  ++ e)] w))
  /\ (forall questions answers n role,
         questions <> [] ->
         List.length questions = List.length answers ->
         Exists (fun a => PyStr.non_blank a = true) answers ->
         service (List.length (calls w))
           (evaluation_request questions answers n role)
         = Raised e ->
         evaluate_answers_openai service json_loads questions answers n
           role w
         = (None,
            after_call (evaluation_request questions answers n role)
              [StError
                 ("An unexpected error occurred during evaluation: " ++ e)]
              w)).
Proof.
  repeat split.
  - intros role. apply check_role_failure.
  - intros answer. apply check_answer_safety_failure.
  - intros questions answers n role. apply evaluate_answers_failure.
Qed.

Lemma client_failure_reported_witness :
  check_role (Fixture.always (Raised "Connection error.")) "Data Analyst"
    Fixture.fresh
  = (None,
     after_call (RoleCheck "Data Analyst")
       [StError
          ("An unexpected error occurred during role name validation: "
           ++ "Connection error.")] Fixture.fresh).
Proof.
  apply (proj1 (client_failure_reported
                  (Fixture.always (Raised "Connection error."))
                  (Fixture.loads []) "Connection error." Fixture.fresh)).
  reflexivity.
Defined.

(** *** More on [evaluate_answers_openai] *)

Lemma item_valid_record_ok (i : nat) (item : json) :
  item_invalid i item = false -> record_ok i item.
Proof.
  destruct item; try discriminate. simpl.
  destruct (Py.dict_get "question_index" fields) as [x|] eqn:Hq;
    [|discriminate].
  destruct (Py.eq_int x (Z.of_nat i)) eqn:Hx; [|discriminate].
  destruct (Py.dict_get "grade" fields) as [g|] eqn:Hg; [|discriminate].
  destruct (Py.isinstance_int g) eqn:Hgi; [|discriminate].
  destruct (Py.dict_get "justification" fields) as [[]|] eqn:Hj;
    try discriminate.
  intros _. exists fields, x, g, s. repeat split; auto.
Qed.

Lemma record_ok_item_valid (i : nat) (item : json) :
  record_ok i item -> item_invalid i item = false.
Proof.
  intros (d & x & g & j & -> & Hq & Hx & Hg & Hgi & Hj).
  simpl. now rewrite Hq, Hx, Hg, Hgi, Hj.
Qed.

Lemma validate_items_none (l : list json) :
  forall i,
    validate_items i l = None <->
    (forall j item, nth_error l j = Some item -> record_ok (i + j) item).
Proof.
  induction l as [|x l IH]; intros i; simpl.
  - split; [|reflexivity]. intros _ [|j] item H; discriminate.
  - destruct (item_invalid i x) eqn:Hx.
    + split; [discriminate|]. intros H.
      specialize (H 0%nat x eq_refl). rewrite Nat.add_0_r in H.
      apply record_ok_item_valid in H. congruence.
    + rewrite IH. split; intros H.
      * intros [|j] item Hj; simpl in Hj.
        -- injection Hj as <-. rewrite Nat.add_0_r.
           now apply item_valid_record_ok.
        -- replace (i + S j)%nat with (S i + j)%nat by lia. now apply H.
      * intros j item Hj. specialize (H (S j) item Hj).
        now replace (i + S j)%nat with (S i + j)%nat in H by lia.
Qed.

Lemma validate_none (v : json) (n : nat) :
  validate v n = None <-> evaluation_ok n v.
Proof.
  split.
  - destruct v; try discriminate. simpl.
    destruct (Py.dict_get "evaluations" fields) as [[]|] eqn:He;
      try discriminate.
    destruct (Py.dict_get "overall_grade" fields) as [g|] eqn:Hg;
      [|discriminate].
    destruct (Py.isinstance_int g) eqn:Hgi; [|discriminate].
    destruct (Py.dict_get "overall_justification" fields) as [[]|] eqn:Hj;
      try discriminate.
    destruct (Nat.eqb_spec (List.length items) n); [|discriminate].
    intros H. exists fields, items, g, s. repeat split; auto.
    apply (proj1 (validate_items_none items 0) H).
  - intros (d & l & g & j & -> & He & Hlen & Hg & Hgi & Hj & Hrec).
    simpl. rewrite He, Hg, Hgi, Hj, Hlen, Nat.eqb_refl.
    now apply validate_items_none.
Qed.

Lemma no_answers_evaluation_ok (n : nat) :
  evaluation_ok n (no_answers_evaluation n).
Proof.
  eexists _, _, _, _. repeat split; try reflexivity.
  - now rewrite length_map, length_seq.
  - intros i item H.
    assert (Hi : (i < n)%nat).
    { assert (Hn : nth_error (map not_answered_record (seq 0 n)) i <> None)
        by congruence.
      apply nth_error_Some in Hn.
      now rewrite length_map, length_seq in Hn. }
    rewrite nth_error_not_answered in H by exact Hi.
    injection H as <-.
    eexists _, _, _, _. repeat split; try reflexivity.
    simpl. apply Z.eqb_refl.
Qed.

Lemma evaluate_answers_some_ok
    (service : nat -> Request -> Reply) (json_loads : string -> Decoding)
    (questions answers : list string) (num_questions : Z) (role : string)
    (w : World) (v : json) :
  fst (evaluate_answers_openai service json_loads questions answers
         num_questions role w)
  = Some v ->
  evaluation_ok (List.length questions) v.
Proof.
  destruct questions as [|q qs]; [discriminate|].
  destruct answers as [|a l]; [discriminate|].
  unfold evaluate_answers_openai.
  destruct (List.length (q :: qs) =? List.length (a :: l))%nat;
    [|discriminate].
  cbn [negb].
  destruct (build_transcript 0 (combine (q :: qs) (a :: l)) "" false)
    as [transcript [|]]; cbn [negb].
  - rewrite bind_create.
    destruct (service _ _) as [response|e]; [|discriminate].
    destruct (first_content response) as [e|[content|]]; try discriminate.
    destruct (json_loads content) as [v'|msg]; [|discriminate].
    destruct (validate v' (List.length (q :: qs))) eqn:Hval; [discriminate|].
    intros [= <-]. now apply validate_none.
  - intros [= <-]. apply no_answers_evaluation_ok.
Qed.

(** X9.  Whatever the service replies, an evaluation returned by
    [evaluate_answers_openai] has the agreed shape: an object with one
    record per question, the [i]-th record carrying [question_index] equal
    to [i], an integer grade and a text justification, and with an integer
    overall grade and a text overall justification. *)
Theorem evaluate_answers_result_ok
    (service : nat -> Request -> Reply) (json_loads : string -> Decoding)
    (questions answers : list string) (num_questions : Z) (role : string)
    (w : World) (v : json) :
  fst (evaluate_answers_openai service json_loads questions answers
         num_questions role w)
  = Some v ->
  evaluation_ok (List.length questions) v.
Proof. apply evaluate_answers_some_ok. Qed.

Lemma evaluate_answers_result_ok_witness :
  evaluation_ok (List.length ["Q1"; "Q2"]) (no_answers_evaluation 2).
Proof.
  apply (evaluate_answers_result_ok
           (Fixture.always (Raised "unreachable")) (Fixture.loads [])
           ["Q1"; "Q2"] [""; " "] 2 "General" Fixture.fresh).
  reflexivity.
Defined.

(** X10.  A decoded reply of the agreed shape is returned as it is, and
    nothing is shown. *)
Theorem evaluate_answers_accepts
    (service : nat -> Request -> Reply) (json_loads : string -> Decoding)
    (questions answers : list string) (num_questions : Z) (role : string)
    (w : World) (response : Response) (text : string) (v : json) :
  questions <> [] ->
  List.length questions = List.length answers ->
  Exists (fun a => PyStr.non_blank a = true) answers ->
  service (List.length (calls w))
    (evaluation_request questions answers num_questions role)
  = Returned response ->
  first_content response = inr (Some text) ->
  json_loads text = Decoded v ->
  evaluation_ok (List.length questions) v ->
  evaluate_answers_openai service json_loads questions answers
    num_questions role w
  = (Some v,
     mkWorld
       (calls w ++ [evaluation_request questions answers num_questions role])
       (page w)).
Proof.
  intros Hq Hlen Hans Hreply Htext Hdec Hok.
  rewrite (evaluate_answers_on_text _ _ _ _ _ _ _ _ _
             Hq Hlen Hans Hreply Htext).
  apply validate_none in Hok. now rewrite Hdec, Hok.
Qed.

Lemma evaluate_answers_accepts_witness :
  evaluate_answers_openai
    (Fixture.always (Fixture.says Sample.one_evaluation_text))
    Sample.decoder ["Q1"] ["my answer"] 3 "Data Analyst" Fixture.fresh
  = (Some Sample.one_evaluation,
     mkWorld
       (calls Fixture.fresh
        ++ [evaluation_request ["Q1"] ["my answer"] 3 "Data Analyst"])
       (page Fixture.fresh)).
Proof.
  apply (evaluate_answers_accepts
           (Fixture.always (Fixture.says Sample.one_evaluation_text))
           Sample.decoder ["Q1"] ["my answer"] 3 "Data Analyst"
           Fixture.fresh
           (mkResponse [Some (Some Sample.one_evaluation_text)])
           Sample.one_evaluation_text Sample.one_evaluation).
  - discriminate.
  - reflexivity.
  - constructor. reflexivity.
  - reflexivity.
  - reflexivity.
  - reflexivity.
  - apply validate_none. reflexivity.
Defined.

Lemma evaluate_answers_decode_failure_witness :
  evaluate_answers_openai
    (Fixture.always (Fixture.says "not json"))
    Sample.decoder ["Q1"] ["my answer"] 3 "Data Analyst" Fixture.fresh
  = (None,
     after_call (evaluation_request ["Q1"] ["my answer"] 3 "Data Analyst")
       [decode_failure "Expecting value: line 1 column 1 (char 0)"]
       Fixture.fresh).
Proof.
  apply (evaluate_answers_decode_failure
           (Fixture.always (Fixture.says "not json"))
           Sample.decoder ["Q1"] ["my answer"] 3 "Data Analyst"
           Fixture.fresh (mkResponse [Some (Some "not json")]) "not json").
  - discriminate.
  - reflexivity.
  - constructor. reflexivity.
  - reflexivity.
  - reflexivity.
  - reflexivity.
Defined.

Lemma build_transcript_valid (pairs : list (string * string)) :
  forall i transcript valid,
    snd (build_transcript i pairs transcript valid)
    = valid || existsb PyStr.non_blank (map snd pairs).
Proof.
  induction pairs as [|[q a] rest IH]; intros i transcript valid; simpl.
  - now rewrite orb_false_r.
  - rewrite truthy_answer_text.
    destruct (PyStr.non_blank a); rewrite IH; simpl.
    + now rewrite orb_true_r.
    + reflexivity.
Qed.

(** X12.  On non-empty lists of equal length, [evaluate_answers_openai]
    sends its one request exactly when some answer is non-blank; when all
    are blank the service is not asked. *)
Theorem evaluate_answers_asks_iff_answered
    (service : nat -> Request -> Reply) (json_loads : string -> Decoding)
    (questions answers : list string) (num_questions : Z) (role : string)
    (w : World) :
  questions <> [] ->
  List.length questions = List.length answers ->
  calls (snd (evaluate_answers_openai service json_loads questions answers
                num_questions role w))
  = if existsb PyStr.non_blank answers
    then (calls w
          ++ [evaluation_request questions answers num_questions role])%list
    else calls w.
Proof.
  intros Hq Hlen. unfold evaluation_request.
  pose proof (build_transcript_valid (combine questions answers) 0 "" false)
    as Hv.
  rewrite map_snd_combine in Hv by exact Hlen. simpl in Hv.
  destruct questions as [|q qs]; [congruence|].
  destruct answers as [|a l]; [discriminate|].
  unfold evaluate_answers_openai.
  rewrite Hlen, Nat.eqb_refl. cbn [negb].
  destruct (build_transcript 0 (combine (q :: qs) (a :: l)) "" false)
    as [transcript valid].
  cbn [snd fst] in *. rewrite <- Hv.
  destruct valid; cbn [negb]; [|reflexivity].
  rewrite bind_create.
  destruct (service _ _) as [response|e]; [|reflexivity].
  destruct (first_content response) as [e|[content|]]; try reflexivity.
  destruct (json_loads content) as [v|msg]; [|reflexivity].
  destruct (validate v _); reflexivity.
Qed.

Lemma evaluate_answers_asks_iff_answered_witness :
  calls (snd (evaluate_answers_openai
                (Fixture.always (Raised "Connection error."))
                Sample.decoder ["Q1"; "Q2"] [" "; "my answer"] 3
                "Data Analyst" Fixture.fresh))
  = if existsb PyStr.non_blank [" "; "my answer"]
    then (calls Fixture.fresh
          ++ [evaluation_request ["Q1"; "Q2"] [" "; "my answer"] 3
                "Data Analyst"])%list
    else calls Fixture.fresh.
Proof.
  apply (evaluate_answers_asks_iff_answered
           (Fixture.always (Raised "Connection error."))
           Sample.decoder ["Q1"; "Q2"] [" "; "my answer"] 3 "Data Analyst"
           Fixture.fresh).
  - discriminate.
  - reflexivity.
Defined.

Lemma lstrip_chars_idem (l : list ascii) :
  PyStr.lstrip_chars (PyStr.lstrip_chars l) = PyStr.lstrip_chars l.
Proof.
  induction l as [|c l IH]; simpl.
  - reflexivity.
  - destruct (PyStr.is_space c) eqn:Hc; [exact IH|].
    simpl. now rewrite Hc.
Qed.

Lemma lstrip_chars_snoc (l : list ascii) (c : ascii) :
  PyStr.is_space c = false ->
  PyStr.lstrip_chars (l ++ [c]) = (PyStr.lstrip_chars l ++ [c])%list.
Proof.
  intros Hc. induction l as [|x l IH]; simpl.
  - now rewrite Hc.
  - destruct (PyStr.is_space x); [exact IH | reflexivity].
Qed.

Lemma rstrip_chars_cons (c : ascii) (l : list ascii) :
  PyStr.is_space c = false ->
  PyStr.rstrip_chars (c :: l) = c :: PyStr.rstrip_chars l.
Proof.
  intros Hc. unfold PyStr.rstrip_chars. simpl.
  rewrite (lstrip_chars_snoc _ _ Hc), rev_app_distr. reflexivity.
Qed.

Lemma rstrip_chars_idem (l : list ascii) :
  PyStr.rstrip_chars (PyStr.rstrip_chars l) = PyStr.rstrip_chars l.
Proof.
  unfold PyStr.rstrip_chars.
  now rewrite rev_involutive, lstrip_chars_idem.
Qed.

Lemma strip_idem (s : string) : PyStr.strip (PyStr.strip s) = PyStr.strip s.
Proof.
  unfold PyStr.strip. rewrite list_ascii_of_string_of_list_ascii.
  f_equal.
  destruct (PyStr.lstrip_chars (list_ascii_of_string s)) as [|c l] eqn:E.
  - reflexivity.
  - pose proof (lstrip_chars_head _ _ _ E) as Hc.
    rewrite (rstrip_chars_cons _ _ Hc). simpl. rewrite Hc.
    rewrite <- (rstrip_chars_cons _ _ Hc). apply rstrip_chars_idem.
Qed.

Lemma answer_text_strip (a : string) :
  (if PyStr.truthy a then PyStr.strip a else "") = PyStr.strip a.
Proof. now destruct a. Qed.

Lemma build_transcript_stripped (pairs : list (string * string)) :
  forall i transcript valid,
    build_transcript i
      (map (fun qa => (fst qa, PyStr.strip (snd qa))) pairs) transcript valid
    = build_transcript i pairs transcript valid.
Proof.
  induction pairs as [|[q a] rest IH]; intros i transcript valid.
  - reflexivity.
  - cbn [map fst snd build_transcript].
    rewrite !answer_text_strip, strip_idem.
    destruct (PyStr.truthy (PyStr.strip a)); apply IH.
Qed.

Lemma combine_map_strip (questions answers : list string) :
  combine questions (map PyStr.strip answers)
  = map (fun qa => (fst qa, PyStr.strip (snd qa))) (combine questions answers).
Proof.
  revert answers.
  induction questions as [|q qs IH]; intros [|a l]; simpl; try reflexivity.
  now rewrite IH.
Qed.

(** X13.  White space around an answer never reaches the evaluator:
    [evaluate_answers_openai] behaves on a list of answers exactly as on
    the same answers stripped, down to the request it sends. *)
Theorem evaluate_answers_ignores_surrounding_space
    (service : nat -> Request -> Reply) (json_loads : string -> Decoding)
    (questions answers : list string) (num_questions : Z) (role : string)
    (w : World) :
  evaluate_answers_openai service json_loads questions
    (map PyStr.strip answers) num_questions role w
  = evaluate_answers_openai service json_loads questions answers
      num_questions role w.
Proof.
  destruct questions as [|q qs]; [reflexivity|].
  destruct answers as [|a l]; [reflexivity|].
  unfold evaluate_answers_openai.
  change (PyStr.strip a :: map PyStr.strip l)
    with (map PyStr.strip (a :: l)).
  rewrite length_map, combine_map_strip, build_transcript_stripped.
  reflexivity.
Qed.

(** *** More on the interviewing page *)

Lemma set_nth_split {A} (l : list A) :
  forall n x,
    (n < List.length l)%nat ->
    Py.set_nth l n x = (firstn n l ++ x :: skipn (S n) l)%list.
Proof.
  induction l as [|y l IH]; intros [|n] x H; simpl in *; try lia.
  - reflexivity.
  - f_equal. apply IH. lia.
Qed.

Lemma nth_error_set_nth_same {A} (l : list A) :
  forall n x, (n < List.length l)%nat -> nth_error (Py.set_nth l n x) n = Some x.
Proof.
  induction l as [|y l IH]; intros [|n] x H; simpl in *; try lia.
  - reflexivity.
  - apply IH. lia.
Qed.

Lemma nth_error_set_nth_other {A} (l : list A) :
  forall n m x, n <> m -> nth_error (Py.set_nth l n x) m = nth_error l m.
Proof.
  induction l as [|y l IH]; intros [|n] [|m] x H; simpl; try reflexivity.
  - congruence.
  - apply IH. congruence.
Qed.

(** What one run of the interviewing page does to a state that satisfies
    the invariant. *)
Lemma interviewing_run_effect
    (typed : string) (click : option Click) (s : Session) (w : World)
    (qs : list string) :
  interview_phase s = interviewing ->
  questions s = Some qs ->
  List.length (answers s) = List.length qs ->
  (0 <= current_question_index s < Z.of_nat (List.length qs))%Z ->
  exists s',
    interviewing_run typed click s w = (Some s', w)
    /\ questions s' = Some qs
    /\ answers s'
       = Py.set_nth (answers s) (Z.to_nat (current_question_index s)) typed
    /\ evaluation_results s' = evaluation_results s
    /\ match click with
       | Some Previous =>
           interview_phase s' = interviewing
           /\ current_question_index s'
              = if (0 <? current_question_index s)%Z
                then (current_question_index s - 1)%Z
                else current_question_index s
       | Some NextOrFinish =>
           if (current_question_index s =? Z.of_nat (List.length qs) - 1)%Z
           then interview_phase s' = finished
                /\ current_question_index s' = current_question_index s
           else interview_phase s' = interviewing
                /\ current_question_index s'
                   = (current_question_index s + 1)%Z
       | Some EndEarly =>
           interview_phase s' = finished
           /\ current_question_index s' = current_question_index s
       | None =>
           interview_phase s' = interviewing
           /\ current_question_index s' = current_question_index s
       end.
Proof.
  intros Hphase Hqs Hlen Hidx.
  unfold interviewing_run. rewrite Hqs.
  destruct (Z.eqb_spec (Z.of_nat (List.length qs)) 0); [lia|].
  destruct (Z.leb_spec (Z.of_nat (List.length qs)) (current_question_index s));
    [lia|].
  cbn [orb].
  destruct (getitem_in_range qs (current_question_index s) Hidx) as [cq ->].
  assert (Hidx' : (0 <= current_question_index s
                   < Z.of_nat (List.length (answers s)))%Z) by lia.
  destruct (getitem_in_range (answers s) _ Hidx') as [old ->].
  rewrite (setitem_in_range _ _ typed Hidx').
  destruct click as [[| |]|].
  - destruct (0 <? current_question_index s)%Z;
      eexists; (split; [reflexivity|]); simpl; auto.
  - destruct (current_question_index s =? Z.of_nat (List.length qs) - 1)%Z;
      eexists; (split; [reflexivity|]); simpl; auto.
  - eexists; (split; [reflexivity|]); simpl; auto.
  - eexists; (split; [reflexivity|]); simpl; auto.
Qed.

(** X14.  A run of the interviewing page stores the text of the text area
    in the slot of the current question and leaves every other answer,
    the questions and the stored evaluation as they were, whichever button
    is pressed. *)
Theorem interviewing_run_edits_current_slot
    (typed : string) (click : option Click) (s : Session) (w : World) :
  interview_phase s = interviewing ->
  interviewing_invariant s ->
  exists s',
    interviewing_run typed click s w = (Some s', w)
    /\ nth_error (answers s') (Z.to_nat (current_question_index s))
       = Some typed
    /\ (forall j, j <> Z.to_nat (current_question_index s) ->
                  nth_error (answers s') j = nth_error (answers s) j)
    /\ questions s' = questions s
    /\ evaluation_results s' = evaluation_results s.
Proof.
  intros Hphase (qs & Hqs & Hlen & Hidx).
  destruct (interviewing_run_effect typed click s w qs Hphase Hqs Hlen Hidx)
    as (s' & Hrun & Hq' & Ha' & He' & _).
  exists s'. rewrite Ha'. repeat split; auto.
  - apply nth_error_set_nth_same. lia.
  - intros j Hj. apply nth_error_set_nth_other. congruence.
  - congruence.
Qed.

Lemma interviewing_run_edits_current_slot_witness :
  exists s',
    interviewing_run "my answer" (Some EndEarly) Fixture.mid_interview
      Fixture.fresh
    = (Some s', Fixture.fresh)
    /\ nth_error (answers s') 1 = Some "my answer"
    /\ (forall j, j <> 1%nat ->
                  nth_error (answers s') j
                  = nth_error (answers Fixture.mid_interview) j)
    /\ questions s' = questions Fixture.mid_interview
    /\ evaluation_results s' = evaluation_results Fixture.mid_interview.
Proof.
  apply (interviewing_run_edits_current_slot "my answer" (Some EndEarly)
           Fixture.mid_interview Fixture.fresh).
  - reflexivity.
  - exists ["Q1"; "Q2"; "Q3"]. simpl. repeat split; lia.
Defined.

(** X15.  Going back and forth: from a question that is not the first,
    "Previous" followed by "Submit & Next" returns to the same question,
    still in the interviewing phase, and the text typed before leaving is
    still in its slot. *)
Theorem previous_then_next_returns
    (typed1 typed2 : string) (s : Session) (w : World) :
  interview_phase s = interviewing ->
  interviewing_invariant s ->
  (0 < current_question_index s)%Z ->
  exists s1 s2,
    interviewing_run typed1 (Some Previous) s w = (Some s1, w)
    /\ interviewing_run typed2 (Some NextOrFinish) s1 w = (Some s2, w)
    /\ interview_phase s2 = interviewing
    /\ current_question_index s2 = current_question_index s
    /\ nth_error (answers s2) (Z.to_nat (current_question_index s))
       = Some typed1.
Proof.
  intros Hphase (qs & Hqs & Hlen & Hidx) Hpos.
  destruct (interviewing_run_effect typed1 (Some Previous) s w qs
              Hphase Hqs Hlen Hidx)
    as (s1 & Hrun1 & Hq1 & Ha1 & _ & Hp1 & Hi1).
  destruct (Z.ltb_spec 0 (current_question_index s)); [|lia].
  assert (Hlen1 : List.length (answers s1) = List.length qs).
  { now rewrite Ha1, length_set_nth. }
  assert (Hidx1 : (0 <= current_question_index s1
                   < Z.of_nat (List.length qs))%Z) by lia.
  destruct (interviewing_run_effect typed2 (Some NextOrFinish) s1 w qs
              Hp1 Hq1 Hlen1 Hidx1)
    as (s2 & Hrun2 & Hq2 & Ha2 & _ & Hnav).
  destruct (Z.eqb_spec (current_question_index s1)
              (Z.of_nat (List.length qs) - 1)); [lia|].
  destruct Hnav as [Hp2 Hi2].
  exists s1, s2. repeat split; auto.
  - lia.
  - rewrite Ha2, Ha1, Hi1.
    rewrite nth_error_set_nth_other by lia.
    apply nth_error_set_nth_same. lia.
Qed.

Lemma previous_then_next_returns_witness :
  exists s1 s2,
    interviewing_run "second" (Some Previous) Fixture.mid_interview
      Fixture.fresh
    = (Some s1, Fixture.fresh)
    /\ interviewing_run "first" (Some NextOrFinish) s1 Fixture.fresh
       = (Some s2, Fixture.fresh)
    /\ interview_phase s2 = interviewing
    /\ current_question_index s2
       = current_question_index Fixture.mid_interview
    /\ nth_error (answers s2)
         (Z.to_nat (current_question_index Fixture.mid_interview))
       = Some "second".
Proof.
  apply (previous_then_next_returns "second" "first" Fixture.mid_interview
           Fixture.fresh).
  - reflexivity.
  - exists ["Q1"; "Q2"; "Q3"]. simpl. repeat split; lia.
  - reflexivity.
Defined.

Lemma firstn_set_nth {A} (l : list A) (n : nat) (x : A) :
  (n < List.length l)%nat ->
  firstn (S n) (Py.set_nth l n x) = (firstn n l ++ [x])%list.
Proof.
  revert n. induction l as [|y l IH]; intros [|n] H; simpl in *; try lia.
  - reflexivity.
  - f_equal. apply IH. lia.
Qed.

Lemma answer_in_turn_from (typed : list string) :
  forall (s : Session) (w : World) (qs : list string) (i : nat),
    typed <> [] ->
    interview_phase s = interviewing ->
    questions s = Some qs ->
    List.length (answers s) = List.length qs ->
    current_question_index s = Z.of_nat i ->
    (i + List.length typed = List.length qs)%nat ->
    exists s',
      answer_in_turn typed s w = (Some s', w)
      /\ interview_phase s' = finished
      /\ questions s' = Some qs
      /\ answers s' = (firstn i (answers s) ++ typed)%list.
Proof.
  induction typed as [|text rest IH];
    intros s w qs i Hne Hphase Hqs Hlen Hidx Hsum; [congruence|].
  simpl in Hsum.
  assert (Hrange : (0 <= current_question_index s
                    < Z.of_nat (List.length qs))%Z) by lia.
  destruct (interviewing_run_effect text (Some NextOrFinish) s w qs
              Hphase Hqs Hlen Hrange)
    as (s1 & Hrun & Hq1 & Ha1 & _ & Hnav).
  cbn [answer_in_turn]. rewrite bind_run, Hrun. cbn [fst snd].
  rewrite Hidx, Nat2Z.id in Ha1.
  destruct rest as [|text' rest'].
  - destruct (Z.eqb_spec (current_question_index s)
                (Z.of_nat (List.length qs) - 1)); [|simpl in Hsum; lia].
    destruct Hnav as [Hp1 _].
    exists s1. repeat split; auto.
    rewrite Ha1, set_nth_split by lia.
    rewrite skipn_all2 by lia. reflexivity.
  - destruct (Z.eqb_spec (current_question_index s)
                (Z.of_nat (List.length qs) - 1)); [simpl in Hsum; lia|].
    destruct Hnav as [Hp1 Hi1].
    destruct (IH s1 w qs (S i)) as (s' & Hrest & Hp' & Hq' & Ha');
      try assumption.
    + discriminate.
    + now rewrite Ha1, length_set_nth.
    + lia.
    + simpl in *. lia.
    + exists s'. repeat split; auto.
      rewrite Ha', Ha1, firstn_set_nth by lia.
      now rewrite <- app_assoc.
Qed.

(** X16.  A whole interview: from the first question of a session that
    satisfies the invariant, typing one text per question and pressing
    "Submit & Next" each time ends in the finished phase with the texts
    typed as the answers, in order, and the questions unchanged. *)
Theorem answering_every_question_finishes
    (typed : list string) (s : Session) (w : World) (qs : list string) :
  interview_phase s = interviewing ->
  questions s = Some qs ->
  qs <> [] ->
  List.length (answers s) = List.length qs ->
  current_question_index s = 0%Z ->
  List.length typed = List.length qs ->
  exists s',
    answer_in_turn typed s w = (Some s', w)
    /\ interview_phase s' = finished
    /\ questions s' = Some qs
    /\ answers s' = typed.
Proof.
  intros Hphase Hqs Hne Hlen Hidx Htyped.
  apply (answer_in_turn_from typed s w qs 0); auto.
  intros ->. destruct qs; [congruence | discriminate].
Qed.

Lemma answering_every_question_finishes_witness :
  exists s',
    answer_in_turn ["one"; ""; "three"]
      (with_index 0 Fixture.mid_interview) Fixture.fresh
    = (Some s', Fixture.fresh)
    /\ interview_phase s' = finished
    /\ questions s' = Some ["Q1"; "Q2"; "Q3"]
    /\ answers s' = ["one"; ""; "three"].
Proof.
  apply (answering_every_question_finishes ["one"; ""; "three"]
           (with_index 0 Fixture.mid_interview) Fixture.fresh
           ["Q1"; "Q2"; "Q3"]).
  - reflexivity.
  - reflexivity.
  - discriminate.
  - reflexivity.
  - reflexivity.
  - reflexivity.
Defined.

(** *** More on the safety sweep *)

Lemma sweep_from_flags (service : nat -> Request -> Reply)
    (todo : list string) :
  forall done i st w st' w',
    i = List.length done ->
    swept_answers st = (done ++ todo)%list ->
    sweep_from service (List.length todo) i st w = (st', w') ->
    all_answers_safe st'
    = all_answers_safe st && all_safe service (List.length (calls w)) todo
    /\ unsafe_indices st'
       = (unsafe_indices st
          ++ flagged_from service (List.length (calls w)) i todo)%list.
Proof.
  induction todo as [|a todo IH]; intros done i st w st' w' Hi Hst Hrun.
  - simpl in Hrun. injection Hrun as <- <-.
    simpl. now rewrite andb_true_r, app_nil_r.
  - subst i. cbn [List.length sweep_from all_safe flagged_from] in *.
    rewrite Hst, nth_error_middle in Hrun.
    assert (Hdone : forall x : string,
               S (List.length done) = List.length (done ++ [x])).
    { intros x. rewrite length_app. simpl. lia. }
    destruct (PyStr.non_blank a) eqn:Hnb.
    + rewrite bind_run in Hrun.
      destruct (check_answer_safety_non_blank service a w Hnb) as [Hv Hc].
      rewrite Hv in Hrun.
      set (w1 := snd (check_answer_safety service a w)) in *.
      assert (Hk : List.length (calls w1) = S (List.length (calls w))).
      { rewrite Hc, length_app. simpl. lia. }
      destruct (safety_verdict
                  (service (List.length (calls w)) (AnswerSafety a)))
        as [[|]|].
      * apply (IH (done ++ [a])%list) in Hrun;
          [|apply Hdone | now rewrite <- app_assoc].
        destruct Hrun as [-> ->]. now rewrite Hk.
      * rewrite bind_st_warning, set_nth_middle in Hrun.
        apply (IH (done ++ [flagged_placeholder])%list) in Hrun;
          [|apply Hdone | simpl; now rewrite <- app_assoc].
        destruct Hrun as [-> ->]. simpl.
        rewrite Hk, andb_false_r, <- app_assoc. auto.
      * rewrite bind_st_error in Hrun.
        apply (IH (done ++ [a])%list) in Hrun;
          [|apply Hdone | simpl; now rewrite <- app_assoc].
        destruct Hrun as [-> ->]. simpl.
        rewrite Hk, andb_false_r. auto.
    + apply (IH (done ++ [a])%list) in Hrun;
        [|apply Hdone | now rewrite <- app_assoc].
      exact Hrun.
Qed.

Lemma checks_before_cons (x : string) (l : list string) (j : nat) :
  checks_before (x :: l) (S j)
  = ((if PyStr.non_blank x then 1 else 0) + checks_before l j)%nat.
Proof.
  unfold checks_before. simpl. now destruct (PyStr.non_blank x).
Qed.

Lemma all_safe_true (service : nat -> Request -> Reply) (l : list string) :
  forall k,
    all_safe service k l = true <->
    (forall j a,
        nth_error l j = Some a -> PyStr.non_blank a = true ->
        verdict_at service k l j a = Some true).
Proof.
  unfold verdict_at.
  induction l as [|x l IH]; intros k; simpl.
  - split; [|reflexivity]. intros _ [|j] a H; discriminate.
  - destruct (PyStr.non_blank x) eqn:Hx.
    + destruct (safety_verdict (service k (AnswerSafety x)))
        as [[|]|] eqn:Hv.
      * rewrite IH. split; intros H.
        -- intros [|j] a Hj Ha; simpl in Hj.
           ++ injection Hj as <-. unfold checks_before. simpl.
              now rewrite Nat.add_0_r.
           ++ rewrite checks_before_cons, Hx.
              replace (k + (1 + checks_before l j))%nat
                with (S k + checks_before l j)%nat by lia.
              now apply H.
        -- intros j a Hj Ha. specialize (H (S j) a Hj Ha).
           rewrite checks_before_cons, Hx in H.
           now replace (k + (1 + checks_before l j))%nat
             with (S k + checks_before l j)%nat in H by lia.
      * split; [discriminate|]. intros H.
        specialize (H 0%nat x eq_refl Hx). unfold checks_before in H.
        simpl in H. rewrite Nat.add_0_r in H. congruence.
      * split; [discriminate|]. intros H.
        specialize (H 0%nat x eq_refl Hx). unfold checks_before in H.
        simpl in H. rewrite Nat.add_0_r in H. congruence.
    + rewrite IH. split; intros H.
      * intros [|j] a Hj Ha; simpl in Hj.
        -- injection Hj as <-. congruence.
        -- rewrite checks_before_cons, Hx. now apply H.
      * intros j a Hj Ha. specialize (H (S j) a Hj Ha).
        now rewrite checks_before_cons, Hx in H.
Qed.

Lemma in_flagged_from (service : nat -> Request -> Reply) (l : list string) :
  forall k i0 i,
    In i (flagged_from service k i0 l) <->
    (exists j a,
        i = (i0 + j)%nat /\ nth_error l j = Some a
        /\ PyStr.non_blank a = true
        /\ verdict_at service k l j a = Some false).
Proof.
  unfold verdict_at.
  induction l as [|x l IH]; intros k i0 i; simpl.
  - split; [tauto|]. intros ([|j] & a & _ & H & _); discriminate.
  - assert (Hshift :
              forall k',
                (exists j a,
                    i = (S i0 + j)%nat /\ nth_error l j = Some a
                    /\ PyStr.non_blank a = true
                    /\ safety_verdict
                         (service (k' + checks_before l j)%nat
                            (AnswerSafety a)) = Some false)
                <->
                (exists j a,
                    i = (i0 + S j)%nat /\ nth_error l j = Some a
                    /\ PyStr.non_blank a = true
                    /\ safety_verdict
                         (service (k' + checks_before l j)%nat
                            (AnswerSafety a)) = Some false)).
    { intros k'. split; intros (j & a & Hi & H); exists j, a;
        (split; [lia | exact H]). }
    destruct (PyStr.non_blank x) eqn:Hx.
    + assert (Htail :
                In i (flagged_from service (S k) (S i0) l) <->
                (exists j a,
                    i = (i0 + S j)%nat /\ nth_error l j = Some a
                    /\ PyStr.non_blank a = true
                    /\ safety_verdict
                         (service (k + checks_before (x :: l) (S j))%nat
                            (AnswerSafety a)) = Some false)).
      { rewrite IH, Hshift.
        split; intros (j & a & Hi & Hj & Ha & Hv); exists j, a;
          repeat split; auto;
          rewrite checks_before_cons, Hx in *;
          now replace (k + (1 + checks_before l j))%nat
            with (S k + checks_before l j)%nat in * by lia. }
      destruct (safety_verdict (service k (AnswerSafety x)))
        as [[|]|] eqn:Hv.
      * rewrite Htail. split.
        -- intros (j & a & H). exists (S j), a. exact H.
        -- intros ([|j] & a & Hi & Hj & Ha & Hv').
           ++ simpl in Hj. injection Hj as <-.
              unfold checks_before in Hv'. simpl in Hv'.
              rewrite Nat.add_0_r in Hv'. congruence.
           ++ exists j, a. auto.
      * simpl. rewrite Htail. split.
        -- intros [<- | (j & a & H)].
           ++ exists 0%nat, x. unfold checks_before. simpl.
              rewrite !Nat.add_0_r. auto.
           ++ exists (S j), a. exact H.
        -- intros ([|j] & a & Hi & Hj & Ha & Hv').
           ++ left. lia.
           ++ right. exists j, a. auto.
      * rewrite Htail. split.
        -- intros (j & a & H). exists (S j), a. exact H.
        -- intros ([|j] & a & Hi & Hj & Ha & Hv').
           ++ simpl in Hj. injection Hj as <-.
              unfold checks_before in Hv'. simpl in Hv'.
              rewrite Nat.add_0_r in Hv'. congruence.
           ++ exists j, a. auto.
    + rewrite IH, Hshift. split.
      * intros (j & a & Hi & Hj & Ha & Hv). exists (S j), a.
        rewrite checks_before_cons, Hx. auto.
      * intros ([|j] & a & Hi & Hj & Ha & Hv).
        -- simpl in Hj. injection Hj as <-. congruence.
        -- exists j, a. rewrite checks_before_cons, Hx in Hv. auto.
Qed.

(** X17.  The flags of the sweep.  [all_answers_safe] is still true after
    the sweep exactly when every non-blank answer got the verdict safe; an
    unsafe verdict or an errored check clears it.  [unsafe_indices] holds
    exactly the positions of the non-blank answers that got the verdict
    unsafe. *)
Theorem safety_sweep_flags
    (service : nat -> Request -> Reply) (s : Session) (w : World) :
  let st := snd (fst (safety_sweep service s w)) in
  (all_answers_safe st = true <->
   (forall i a,
       nth_error (answers s) i = Some a -> PyStr.non_blank a = true ->
       verdict_at service (List.length (calls w)) (answers s) i a
       = Some true))
  /\ (forall i,
         In i (unsafe_indices st) <->
         (exists a,
             nth_error (answers s) i = Some a
             /\ PyStr.non_blank a = true
             /\ verdict_at service (List.length (calls w)) (answers s) i a
                = Some false)).
Proof.
  unfold safety_sweep. cbv zeta. rewrite bind_run.
  destruct (sweep_from service (List.length (answers s)) 0
              {| swept_answers := answers s;
                 all_answers_safe := true;
                 unsafe_indices := [] |} w) as [st w1] eqn:Hrun.
  apply (sweep_from_flags service (answers s) []) in Hrun;
    [|reflexivity|reflexivity].
  destruct Hrun as [Hsafe Hunsafe]. simpl in Hsafe, Hunsafe.
  cbn [fst snd].
  assert (Hst : snd (fst
                  (((if all_answers_safe st then ret tt
                     else st_error
                            "Some answers were flagged as potentially unsafe and may not be evaluated properly.") ;;;
                    ret (with_answers (swept_answers st) s, st)) w1))
                = st)
    by now destruct (all_answers_safe st).
  rewrite Hst, Hsafe, Hunsafe. split.
  - apply all_safe_true.
  - intros i. rewrite in_flagged_from. split.
    + intros (j & a & -> & H). exists a. exact H.
    + intros (a & H). exists i, a. split; [reflexivity | exact H].
Qed.

Lemma safety_sweep_flags_witness :
  In 2%nat
    (unsafe_indices
       (snd (fst (safety_sweep (Fixture.always (Fixture.says "UNSAFE"))
                    Fixture.hard_finished Fixture.fresh)))).
Proof.
  apply (proj2 (proj2 (safety_sweep_flags
                         (Fixture.always (Fixture.says "UNSAFE"))
                         Fixture.hard_finished Fixture.fresh) 2%nat)).
  exists "a3". repeat split.
Defined.

(** *** The finished page down to the display *)

Lemma safety_sweep_result
    (service : nat -> Request -> Reply) (s : Session) (w : World) :
  fst (fst (safety_sweep service s w))
  = with_answers (swept service (List.length (calls w)) (answers s)) s
  /\ calls (snd (safety_sweep service s w))
     = (calls w ++ map AnswerSafety (filter PyStr.non_blank (answers s)))%list.
Proof.
  unfold safety_sweep. rewrite bind_run.
  destruct (sweep_from service (List.length (answers s)) 0
              {| swept_answers := answers s;
                 all_answers_safe := true;
                 unsafe_indices := [] |} w) as [st w1] eqn:Hrun.
  apply (sweep_from_swept service (answers s) []) in Hrun;
    [|reflexivity|reflexivity].
  destruct Hrun as [Hans Hcalls]. simpl in Hans. cbn [fst snd].
  destruct (all_answers_safe st); simpl; now rewrite Hans, Hcalls.
Qed.

Lemma finished_evaluation_calls
    (service : nat -> Request -> Reply) (json_loads : string -> Decoding)
    (s : Session) (w : World) :
  exists tail,
    calls (snd (finished_evaluation service json_loads s w))
    = (calls w ++ tail)%list
    /\ (tail = [] \/ exists role transcript n,
                       tail = [Evaluation role transcript n])
    /\ (evaluation_results s <> None -> tail = []).
Proof.
  unfold finished_evaluation.
  destruct (evaluation_results s) as [v|].
  - exists []. simpl. rewrite app_nil_r. auto.
  - destruct (existsb PyStr.non_blank (answers s)).
    + rewrite bind_run.
      destruct (questions s) as [qs|].
      * destruct (evaluate_answers_calls service json_loads qs (answers s)
                    (num_questions_selected s) (effective_role s) w)
          as [H | H].
        -- exists []. rewrite app_nil_r. split; [|split; [auto | congruence]].
           match goal with
           | |- context [if ?b then _ else _] => destruct b
           end; simpl; exact H.
        -- eexists. split; [|split; [right; unfold evaluation_request; eauto
                                    | congruence]].
           match goal with
           | |- context [if ?b then _ else _] => destruct b
           end; simpl; exact H.
      * exists []. simpl. rewrite app_nil_r. split; [auto|split; [auto|congruence]].
    + exists []. rewrite bind_st_warning.
      destruct (questions s); simpl; rewrite app_nil_r;
        (split; [auto|split; [auto|congruence]]).
Qed.

(** X18.  The requests of the finished page, down to the display: one
    safety request per non-blank answer, in order, then at most one
    evaluation request, and no evaluation request at all when an
    evaluation is already stored. *)
Theorem finished_entry_requests
    (service : nat -> Request -> Reply) (json_loads : string -> Decoding)
    (s : Session) (w : World) :
  exists tail,
    calls (snd (finished_entry service json_loads s w))
    = (calls w
       ++ map AnswerSafety (filter PyStr.non_blank (answers s))
       ++ tail)%list
    /\ (tail = [] \/ exists role transcript n,
                       tail = [Evaluation role transcript n])
    /\ (evaluation_results s <> None -> tail = []).
Proof.
  unfold finished_entry. rewrite bind_run.
  destruct (safety_sweep_result service s w) as [Hs Hc].
  destruct (finished_evaluation_calls service json_loads
              (fst (fst (safety_sweep service s w)))
              (snd (safety_sweep service s w)))
    as (tail & Hcalls & Hshape & Hcached).
  exists tail. rewrite Hcalls, Hc, <- app_assoc.
  repeat split; auto.
  intros H. apply Hcached. now rewrite Hs.
Qed.










(** *** The setup page *)

Lemma role_for_start_value
    (service : nat -> Request -> Reply) (display_role : string) (w : World) :
  fst (role_for_start service display_role w)
  = if (display_role =? "Other...")%string
       || negb (PyStr.truthy display_role)
    then ""
    else match reply_token
                 (service (List.length (calls w)) (RoleCheck display_role))
         with
         | Some x => if (x =? "VALID")%string then display_role else ""
         | None => ""
         end.
Proof.
  unfold role_for_start.
  destruct (display_role =? "Other...")%string; [reflexivity|].
  destruct (PyStr.truthy display_role) eqn:Ht; [|reflexivity].
  cbn [negb orb]. rewrite bind_run, check_role_by_token.
  destruct (reply_token _) as [x|]; [|reflexivity].
  destruct (x =? "VALID")%string.
  - destruct (String.eqb_spec display_role ""); [|reflexivity].
    subst. discriminate.
  - destruct (x =? "INVALID")%string; reflexivity.
Qed.

Lemma role_for_start_calls
    (service : nat -> Request -> Reply) (display_role : string) (w : World) :
  calls (snd (role_for_start service display_role w))
  = if (display_role =? "Other...")%string
       || negb (PyStr.truthy display_role)
    then calls w
    else (calls w ++ [RoleCheck display_role])%list.
Proof.
  unfold role_for_start.
  destruct (display_role =? "Other...")%string; [reflexivity|].
  destruct (PyStr.truthy display_role) eqn:Ht; [|reflexivity].
  cbn [negb orb]. rewrite bind_run.
  rewrite <- (check_role_calls service display_role w).
  destruct (fst (check_role service display_role w)) as [name|];
    [|reflexivity].
  destruct (name =? "")%string; reflexivity.
Qed.

(** X21.  The role that enables the start button.  The value of
    [effective_role_for_start] is either empty (button disabled) or the
    very role displayed, and it is that role exactly when the role is
    neither "Other..." nor empty and the reply to this run's role check
    was VALID. *)
Theorem start_enabled_only_when_valid
    (service : nat -> Request -> Reply) (display_role : string) (w : World) :
  let r := fst (role_for_start service display_role w) in
  let token :=
    reply_token (service (List.length (calls w)) (RoleCheck display_role)) in
  (r <> "" ->
   r = display_role /\ display_role <> "Other..." /\ token = Some "VALID")
  /\ (display_role <> "Other..." -> display_role <> "" ->
      token = Some "VALID" -> r = display_role).
Proof.
  cbv zeta. rewrite role_for_start_value. split.
  - destruct (String.eqb_spec display_role "Other..."); [easy|].
    destruct (PyStr.truthy display_role); [|easy]. cbn [negb orb].
    destruct (reply_token _) as [x|]; [|easy].
    destruct (String.eqb_spec x "VALID"); [|easy].
    subst x. auto.
  - intros H1 H2 ->.
    destruct (String.eqb_spec display_role "Other..."); [easy|].
    destruct display_role; [easy | reflexivity].
Qed.

Lemma start_enabled_only_when_valid_witness :
  fst (role_for_start (Fixture.always (Fixture.says "valid"))
         "Data Analyst" Fixture.fresh)
  = "Data Analyst".
Proof.
  apply (proj2 (start_enabled_only_when_valid
                  (Fixture.always (Fixture.says "valid")) "Data Analyst"
                  Fixture.fresh)).
  - discriminate.
  - discriminate.
  - reflexivity.
Defined.

Lemma existsb_Z_in (x : Z) (l : list Z) :
  In x l -> existsb (Z.eqb x) l = true.
Proof.
  intros H. apply existsb_exists. exists x. split; [exact H|].
  apply Z.eqb_refl.
Qed.

Lemma existsb_string_in (x : string) (l : list string) :
  In x l -> existsb (String.eqb x) l = true.
Proof.
  intros H. apply existsb_exists. exists x. split; [exact H|].
  apply String.eqb_refl.
Qed.

(** X22.  With "Other..." selected and a custom role that is empty or
    white space, a run of the setup page asks the service nothing and
    cannot start an interview, pressed or not: it only records the
    selections, with "Other..." as the effective role. *)
Theorem setup_run_blank_custom_role
    (service : nat -> Request -> Reply) (json_loads : string -> Decoding)
    (widgets : SetupWidgets) (s : Session) (w : World) :
  selections_ok s ->
  role_select widgets = "Other..." ->
  PyStr.whitespace_only (custom_role_text widgets) ->
  setup_run service json_loads widgets s w
  = (Some (with_roles "Other..." "" "Other..."
             (with_complexity (q_complexity widgets)
                (with_count (num_q_select widgets) s))),
     w).
Proof.
  intros [Hn Hc] Hsel Hblank. unfold setup_run.
  rewrite (existsb_Z_in _ _ Hn), (existsb_string_in _ _ Hc), Hsel.
  rewrite (strip_whitespace_only _ Hblank). simpl.
  unfold role_for_start. simpl. rewrite bind_ret.
  now rewrite andb_false_r.
Qed.

Lemma setup_run_blank_custom_role_witness :
  setup_run (Fixture.always (Raised "unreachable")) Sample.decoder
    (mkSetupWidgets 4 "Other..." "Hard" "   " true) default_session
    Fixture.fresh
  = (Some (with_roles "Other..." "" "Other..."
             (with_complexity "Hard" (with_count 4 default_session))),
     Fixture.fresh).
Proof.
  apply (setup_run_blank_custom_role
           (Fixture.always (Raised "unreachable")) Sample.decoder
           (mkSetupWidgets 4 "Other..." "Hard" "   " true) default_session
           Fixture.fresh).
  - split; simpl; auto.
  - reflexivity.
  - repeat constructor.
Defined.

Lemma setup_run_steps
    (service : nat -> Request -> Reply) (json_loads : string -> Decoding)
    (widgets : SetupWidgets) (s : Session) (w : World) :
  selections_ok s ->
  setup_run service json_loads widgets s w
  = let checked := role_for_start service (resolved_role widgets) w in
    if start_pressed widgets && PyStr.truthy (fst checked)
    then
      let started :=
        start_interview service json_loads (fst checked)
          (configured widgets s) (snd checked) in
      (Some (fst started), snd started)
    else (Some (configured widgets s), snd checked).
Proof.
  intros [Hn Hc]. unfold setup_run.
  rewrite (existsb_Z_in _ _ Hn), (existsb_string_in _ _ Hc).
  cbn [negb]. cbv zeta.
  fold (resolved_custom_role widgets). fold (resolved_role widgets).
  fold (configured widgets s).
  rewrite bind_run.
  destruct (start_pressed widgets
            && PyStr.truthy
                 (fst (role_for_start service (resolved_role widgets) w))).
  - rewrite bind_run. reflexivity.
  - reflexivity.
Qed.

Lemma start_interview_keeps
    (service : nat -> Request -> Reply) (json_loads : string -> Decoding)
    (final_role : string) (s : Session) (w : World) :
  let s' := fst (start_interview service json_loads final_role s w) in
  num_questions_selected s' = num_questions_selected s
  /\ questions_complexity s' = questions_complexity s
  /\ effective_role s' = effective_role s
  /\ calls (snd (start_interview service json_loads final_role s w))
     = (calls w
        ++ [QuestionGeneration (num_questions_selected s)
              (questions_complexity s) final_role])%list.
Proof.
  cbv zeta. unfold start_interview. rewrite bind_run.
  rewrite <- (generate_questions_calls service json_loads
                (num_questions_selected s) (questions_complexity s)
                final_role w).
  destruct (fst (generate_questions_openai service json_loads
                   (num_questions_selected s) (questions_complexity s)
                   final_role w)) as [[|q qs]|]; repeat split.
Qed.

Lemma interviewing_run_keeps_selections
    (typed : string) (click : option Click) (s s' : Session) (w : World) :
  fst (interviewing_run typed click s w) = Some s' ->
  num_questions_selected s' = num_questions_selected s
  /\ questions_complexity s' = questions_complexity s.
Proof.
  unfold interviewing_run.
  destruct (questions s) as [qs|]; [|discriminate].
  destruct ((Z.of_nat (List.length qs) =? 0)%Z
            || (Z.of_nat (List.length qs) <=? current_question_index s)%Z).
  - rewrite bind_st_error. intros [= <-]. split; reflexivity.
  - destruct (Py.getitem qs (current_question_index s)); [|discriminate].
    destruct (Py.getitem (answers s) (current_question_index s));
      [|discriminate].
    destruct (Py.setitem (answers s) (current_question_index s) typed);
      [|discriminate].
    destruct click as [[| |]|].
    + destruct (0 <? current_question_index s)%Z;
        intros [= <-]; split; reflexivity.
    + destruct (current_question_index s =? Z.of_nat (List.length qs) - 1)%Z;
        intros [= <-]; split; reflexivity.
    + intros [= <-]; split; reflexivity.
    + intros [= <-]; split; reflexivity.
Qed.

Lemma finished_entry_keeps_selections
    (service : nat -> Request -> Reply) (json_loads : string -> Decoding)
    (s s' : Session) (w : World) :
  fst (finished_entry service json_loads s w) = Some s' ->
  num_questions_selected s' = num_questions_selected s
  /\ questions_complexity s' = questions_complexity s.
Proof.
  unfold finished_entry. rewrite bind_run.
  destruct (safety_sweep_result service s w) as [-> _].
  set (s1 := with_answers _ s). set (w1 := snd _).
  unfold finished_evaluation.
  destruct (evaluation_results s1).
  - intros [= <-]. split; reflexivity.
  - destruct (existsb PyStr.non_blank (answers s1)).
    + rewrite bind_run.
      match goal with
      | |- context [if ?b then _ else _] => destruct b
      end; intros [= <-]; split; reflexivity.
    + rewrite bind_st_warning.
      destruct (questions s1); [|discriminate].
      intros [= <-]; split; reflexivity.
Qed.

(** X23.  The select boxes can always be drawn.  That the stored question
    count and complexity are options of their select boxes (so that the
    [index] lookups of the setup page do not raise) holds at process
    start and is kept by every run of the setup page whose select boxes
    return options, which then completes, by every run of the
    interviewing page, by the finished page and by "Start New
    Interview". *)
Theorem selections_stay_valid :
  selections_ok default_session
  /\ (forall service json_loads widgets s w,
         selections_ok s ->
         In (num_q_select widgets) question_options ->
         In (q_complexity widgets) complexity_options ->
         exists s',
           fst (setup_run service json_loads widgets s w) = Some s'
           /\ selections_ok s')
  /\ (forall typed click s w s',
         selections_ok s ->
         fst (interviewing_run typed click s w) = Some s' ->
         selections_ok s')
  /\ (forall service json_loads s w s',
         selections_ok s ->
         fst (finished_entry service json_loads s w) = Some s' ->
         selections_ok s')
  /\ (forall s, selections_ok s -> selections_ok (start_new_interview s)).
Proof.
  unfold selections_ok. split; [|split; [|split; [|split]]].
  - simpl. auto.
  - intros service json_loads widgets s w Hs Hn Hc.
    rewrite (setup_run_steps service json_loads widgets s w Hs). cbv zeta.
    destruct (start_pressed widgets && _).
    + eexists. split; [reflexivity|]. cbn [fst].
      destruct (start_interview_keeps service json_loads
                  (fst (role_for_start service (resolved_role widgets) w))
                  (configured widgets s)
                  (snd (role_for_start service (resolved_role widgets) w)))
        as (-> & -> & _).
      simpl. auto.
    + eexists. split; [reflexivity|]. simpl. auto.
  - intros typed click s w s' [Hn Hc] Hrun.
    destruct (interviewing_run_keeps_selections _ _ _ _ _ Hrun) as [-> ->].
    auto.
  - intros service json_loads s w s' [Hn Hc] Hrun.
    destruct (finished_entry_keeps_selections _ _ _ _ _ Hrun) as [-> ->].
    auto.
  - intros s [Hn Hc]. simpl. auto.
Qed.

Lemma selections_stay_valid_witness :
  exists s',
    fst (setup_run (Fixture.always (Fixture.says "VALID")) Sample.decoder
           (mkSetupWidgets 4 "General" "Hard" "" false) default_session
           Fixture.fresh)
    = Some s'
    /\ selections_ok s'.
Proof.
  apply (proj1 (proj2 selections_stay_valid)
           (Fixture.always (Fixture.says "VALID")) Sample.decoder
           (mkSetupWidgets 4 "General" "Hard" "" false) default_session
           Fixture.fresh).
  - split; simpl; auto.
  - simpl. auto.
  - simpl. auto.
Defined.

Lemma start_interview_started
    (service : nat -> Request -> Reply) (json_loads : string -> Decoding)
    (final_role : string) (s : Session) (w : World) :
  interview_phase s = setup ->
  interview_phase (fst (start_interview service json_loads final_role s w))
  = interviewing ->
  exists q qs,
    fst (generate_questions_openai service json_loads
           (num_questions_selected s) (questions_complexity s) final_role w)
    = Some (q :: qs)
    /\ questions (fst (start_interview service json_loads final_role s w))
       = Some (q :: qs)
    /\ evaluation_results
         (fst (start_interview service json_loads final_role s w))
       = None.
Proof.
  intros Hsetup. unfold start_interview. rewrite bind_run.
  destruct (fst (generate_questions_openai service json_loads
                   (num_questions_selected s) (questions_complexity s)
                   final_role w)) as [[|q qs]|]; simpl.
  - congruence.
  - intros _. exists q, qs. auto.
  - congruence.
Qed.

Lemma question_options_bounds (n : Z) :
  In n question_options -> (3 <= n <= 10)%Z.
Proof.
  unfold question_options. simpl. intuition lia.
Qed.

(** X24.  How an interview starts.  When a run of the setup page leaves
    the session in the interviewing phase, the start button was pressed,
    the reply to this run's check of the resolved role was VALID, that
    role is the effective role of the session, the invariant of the
    interviewing phase holds, no evaluation is stored, and there are
    between one question and as many as were selected. *)
Theorem setup_run_enters_interview
    (service : nat -> Request -> Reply) (json_loads : string -> Decoding)
    (widgets : SetupWidgets) (s s' : Session) (w : World) :
  selections_ok s ->
  interview_phase s = setup ->
  In (num_q_select widgets) question_options ->
  fst (setup_run service json_loads widgets s w) = Some s' ->
  interview_phase s' = interviewing ->
  start_pressed widgets = true
  /\ reply_token
       (service (List.length (calls w)) (RoleCheck (resolved_role widgets)))
     = Some "VALID"
  /\ effective_role s' = resolved_role widgets
  /\ interviewing_invariant s'
  /\ evaluation_results s' = None
  /\ exists qs,
       questions s' = Some qs
       /\ (1 <= Z.of_nat (List.length qs) <= num_q_select widgets)%Z.
Proof.
  intros Hs Hsetup Hn.
  rewrite (setup_run_steps service json_loads widgets s w Hs). cbv zeta.
  pose proof (role_for_start_value service (resolved_role widgets) w) as Hr.
  destruct (start_pressed widgets) eqn:Hpressed; cbn [andb].
  2:{ intros [= <-] Hphase. simpl in Hphase. congruence. }
  destruct (PyStr.truthy
              (fst (role_for_start service (resolved_role widgets) w)))
    eqn:Htruthy.
  2:{ intros [= <-] Hphase. simpl in Hphase. congruence. }
  assert (Hvalid :
            fst (role_for_start service (resolved_role widgets) w)
            = resolved_role widgets
            /\ reply_token
                 (service (List.length (calls w))
                    (RoleCheck (resolved_role widgets)))
               = Some "VALID").
  { destruct ((resolved_role widgets =? "Other...")%string
              || negb (PyStr.truthy (resolved_role widgets))).
    - rewrite Hr in Htruthy. discriminate.
    - destruct (reply_token _) as [x|].
      + destruct (String.eqb_spec x "VALID").
        * subst x. auto.
        * rewrite Hr in Htruthy. discriminate.
      + rewrite Hr in Htruthy. discriminate. }
  destruct Hvalid as [Hrole Htoken]. rewrite Hrole.
  set (w1 := snd (role_for_start service (resolved_role widgets) w)).
  cbn [fst]. intros [= <-] Hphase.
  assert (Hconf : interview_phase (configured widgets s) = setup)
    by exact Hsetup.
  destruct (start_interview_establishes service json_loads
              (resolved_role widgets) (configured widgets s) w1 Hconf Hphase)
    as (Hinv & _ & _).
  destruct (start_interview_started service json_loads
              (resolved_role widgets) (configured widgets s) w1 Hconf Hphase)
    as (q & qs & Hgen & Hqs & Heval).
  destruct (start_interview_keeps service json_loads
              (resolved_role widgets) (configured widgets s) w1)
    as (_ & _ & Heff & _).
  repeat split; auto.
  exists (q :: qs). split; [exact Hqs|].
  apply question_options_bounds in Hn.
  pose proof (generate_questions_at_most service json_loads
                (num_questions_selected (configured widgets s))
                (questions_complexity (configured widgets s))
                (resolved_role widgets) w1 (q :: qs)) as Hbound.
  simpl in Hbound. specialize (Hbound ltac:(lia) Hgen).
  simpl. lia.
Qed.

Lemma setup_run_enters_interview_witness :
  let service :=
    Sample.by_kind (Fixture.says "VALID")
      (Fixture.says Fixture.two_questions_text)
      (Fixture.says "SAFE") (Raised "unreachable") in
  let widgets := mkSetupWidgets 3 "Data Analyst" "Easy" "" true in
  exists s',
    fst (setup_run service Sample.decoder widgets default_session
           Fixture.fresh)
    = Some s'
    /\ start_pressed widgets = true
    /\ reply_token (service 0%nat (RoleCheck (resolved_role widgets)))
       = Some "VALID"
    /\ effective_role s' = resolved_role widgets
    /\ interviewing_invariant s'
    /\ evaluation_results s' = None
    /\ exists qs,
         questions s' = Some qs
         /\ (1 <= Z.of_nat (List.length qs) <= num_q_select widgets)%Z.
Proof.
  cbv zeta. eexists. split; [reflexivity|].
  apply (setup_run_enters_interview
           (Sample.by_kind (Fixture.says "VALID")
              (Fixture.says Fixture.two_questions_text)
              (Fixture.says "SAFE") (Raised "unreachable"))
           Sample.decoder
           (mkSetupWidgets 3 "Data Analyst" "Easy" "" true)
           default_session _ Fixture.fresh).
  - split; simpl; auto.
  - reflexivity.
  - simpl. auto.
  - reflexivity.
  - reflexivity.
Defined.

(** X25.  The requests of a run of the setup page: one role check unless
    the resolved role is "Other..." or empty, and then, only when the
    start button was pressed and the role found valid, one request for
    questions, made for the count, the complexity and the role chosen in
    this very run. *)
Theorem setup_run_requests
    (service : nat -> Request -> Reply) (json_loads : string -> Decoding)
    (widgets : SetupWidgets) (s : Session) (w : World) :
  selections_ok s ->
  calls (snd (setup_run service json_loads widgets s w))
  = (calls w
     ++ (if (resolved_role widgets =? "Other...")%string
            || negb (PyStr.truthy (resolved_role widgets))
         then []
         else [RoleCheck (resolved_role widgets)])
     ++ (if start_pressed widgets
            && PyStr.truthy
                 (fst (role_for_start service (resolved_role widgets) w))
         then [QuestionGeneration (num_q_select widgets)
                 (q_complexity widgets) (resolved_role widgets)]
         else []))%list.
Proof.
  intros Hs.
  rewrite (setup_run_steps service json_loads widgets s w Hs). cbv zeta.
  pose proof (role_for_start_value service (resolved_role widgets) w) as Hr.
  pose proof (role_for_start_calls service (resolved_role widgets) w) as Hc.
  destruct (start_pressed widgets
            && PyStr.truthy
                 (fst (role_for_start service (resolved_role widgets) w)))
    eqn:Hgo; cbn [snd].
  - apply andb_prop in Hgo. destruct Hgo as [_ Htruthy].
    destruct (start_interview_keeps service json_loads
                (fst (role_for_start service (resolved_role widgets) w))
                (configured widgets s)
                (snd (role_for_start service (resolved_role widgets) w)))
      as (_ & _ & _ & ->).
    rewrite Hc.
    destruct ((resolved_role widgets =? "Other...")%string
              || negb (PyStr.truthy (resolved_role widgets))).
    + rewrite Hr in Htruthy. discriminate.
    + assert (Hrole : fst (role_for_start service (resolved_role widgets) w)
                      = resolved_role widgets).
      { destruct (reply_token _) as [x|].
        - destruct (x =? "VALID")%string; [exact Hr|].
          rewrite Hr in Htruthy. discriminate.
        - rewrite Hr in Htruthy. discriminate. }
      rewrite Hrole, <- app_assoc. reflexivity.
  - rewrite Hc, app_nil_r.
    destruct ((resolved_role widgets =? "Other...")%string
              || negb (PyStr.truthy (resolved_role widgets)));
      [now rewrite app_nil_r | reflexivity].
Qed.

Lemma setup_run_requests_witness :
  calls (snd (setup_run
                (Sample.by_kind (Fixture.says "VALID")
                   (Fixture.says Fixture.two_questions_text)
                   (Fixture.says "SAFE") (Raised "unreachable"))
                Sample.decoder
                (mkSetupWidgets 3 "Other..." "Easy" " Site Reliability "
                   true)
                default_session Fixture.fresh))
  = [RoleCheck "Site Reliability";
     QuestionGeneration 3 "Easy" "Site Reliability"].
Proof.
  exact (setup_run_requests
           (Sample.by_kind (Fixture.says "VALID")
              (Fixture.says Fixture.two_questions_text)
              (Fixture.says "SAFE") (Raised "unreachable"))
           Sample.decoder
           (mkSetupWidgets 3 "Other..." "Easy" " Site Reliability " true)
           default_session Fixture.fresh
           (conj (or_intror (or_intror (or_introl eq_refl)))
                 (or_intror (or_introl eq_refl)))).
Defined.
